(** * mypdf: PDF to speech conversion pipeline and its HTTP front-end

    A shallow embedding of [src/pdf2tts.py] ([extract_text_from_pdf],
    [pdf_to_mp3_with_ttsfm]) and [src/service.py] ([convert_pdf]).

    Python code is written in a state-and-exception monad over a [world]
    that records the observable effects (an event trace, the temporary
    directories on disk, the number of open document handles).  The
    external collaborators (PyMuPDF, ttsfm, the upload object, the file
    system writes) are supplied by an environment [Env] that fixes, for one
    run, what each of their calls returns or raises.  [print] and the
    wall-clock timing of [pdf_to_mp3_with_ttsfm] have no bearing on control
    flow and are left out. *)

From Stdlib Require Import String Ascii ZArith NArith Bool Lia SpecFloat List.
Import ListNotations.
Open Scope Z_scope.

(** ** Python strings *)

(** A Python 3 [str] is a sequence of Unicode code points; [len] counts
    code points. *)
Definition char := N.
Definition str := list char.

(** ASCII literals. *)
Definition lit (s : string) : str :=
  map N_of_ascii (list_ascii_of_string s).

Definition len (s : str) : Z := Z.of_nat (length s).

Definition char_eqb (a b : char) : bool := N.eqb a b.

Fixpoint str_eqb (a b : str) : bool :=
  match a, b with
  | [], [] => true
  | x :: a', y :: b' => char_eqb x y && str_eqb a' b'
  | _, _ => false
  end.

(** [str.isspace] on one code point (the table of CPython's
    [_PyUnicode_IsWhitespace]). *)
Definition isspace (c : char) : bool :=
  ((9 <=? c) && (c <=? 13) || (28 <=? c) && (c <=? 32)
   || (c =? 133) || (c =? 160) || (c =? 5760)
   || (8192 <=? c) && (c <=? 8202)
   || (c =? 8232) || (c =? 8233) || (c =? 8239) || (c =? 8287)
   || (c =? 12288))%N.

Fixpoint lstrip (s : str) : str :=
  match s with
  | [] => []
  | c :: r => if isspace c then lstrip r else s
  end.

Definition rstrip (s : str) : str := rev (lstrip (rev s)).

(** [s.strip()] with no argument. *)
Definition strip (s : str) : str := rstrip (lstrip s).

(** Truth value of a [str]: the empty string is falsy. *)
Definition str_truthy (s : str) : bool :=
  match s with [] => false | _ :: _ => true end.

(** [sep.join(items)]. *)
Fixpoint join (sep : str) (items : list str) : str :=
  match items with
  | [] => []
  | [x] => x
  | x :: rest => x ++ sep ++ join sep rest
  end.

(** [s.split(sep)] for a one-character separator. *)
Fixpoint split (sep : char) (s : str) : list str :=
  match s with
  | [] => [[]]
  | c :: r =>
      if char_eqb c sep then [] :: split sep r
      else match split sep r with
           | h :: t => (c :: h) :: t
           | [] => [[c]]
           end
  end.

(** [s.rfind(c)]: index of the last occurrence, [-1] when there is none. *)
Fixpoint rfind_from (c : char) (s : str) (i : Z) (found : Z) : Z :=
  match s with
  | [] => found
  | x :: r => rfind_from c r (i + 1) (if char_eqb x c then i else found)
  end.

Definition rfind (c : char) (s : str) : Z := rfind_from c s 0 (-1).

Definition slash : char := 47%N.
Definition dot : char := 46%N.
Definition newline : char := 10%N.

(** ** pathlib (POSIX flavour, as on the hosts where the service runs) *)

(** A pure path: its root ([""], ["/"] or ["//"]) and its components. *)
Record path := mkPath { root : str; parts : list str }.

Fixpoint drop_slashes (s : str) : str :=
  match s with
  | [] => []
  | c :: r => if char_eqb c slash then drop_slashes r else s
  end.

(** [posixpath.splitroot]: exactly two leading slashes are kept as ["//"],
    one or at least three collapse to ["/"]. *)
Definition splitroot (s : str) : str * str :=
  match s with
  | c1 :: r1 =>
      if char_eqb c1 slash then
        match r1 with
        | c2 :: r2 =>
            if char_eqb c2 slash then
              match r2 with
              | c3 :: _ =>
                  if char_eqb c3 slash then ([slash], drop_slashes r2)
                  else ([slash; slash], r2)
              | [] => ([slash; slash], [])
              end
            else ([slash], r1)
        | [] => ([slash], [])
        end
      else ([], s)
  | [] => ([], [])
  end.

(** Components that parsing keeps: non-empty and different from ["."]. *)
Definition keeps (x : str) : bool :=
  str_truthy x && negb (str_eqb x [dot]).

(** [Path(s)]. *)
Definition Path (s : str) : path :=
  let '(rt, rel) := splitroot s in
  mkPath rt (filter keeps (split slash rel)).

(** [p.name]: the final component, [""] when there is none. *)
Definition name (p : path) : str := last (parts p) [].

(** [p.stem]: the name without its last suffix. *)
Definition stem (p : path) : str :=
  let n := name p in
  let i := rfind dot n in
  if (0 <? i) && (i <? len n - 1) then firstn (Z.to_nat i) n else n.

(** [p / s]: an absolute right operand replaces the left one. *)
Definition truediv (p : path) (s : str) : path :=
  let q := Path s in
  if str_truthy (root q) then q
  else mkPath (root p) (parts p ++ parts q).

(** [str(p)]. *)
Definition path_str (p : path) : str :=
  match root p, parts p with
  | [], [] => [dot]
  | rt, ps => rt ++ join [slash] ps
  end.

Fixpoint strs_eqb (a b : list str) : bool :=
  match a, b with
  | [], [] => true
  | x :: a', y :: b' => str_eqb x y && strs_eqb a' b'
  | _, _ => false
  end.

Definition path_eqb (p q : path) : bool :=
  str_eqb (root p) (root q) && strs_eqb (parts p) (parts q).

(** A component that names an entry of the directory it is joined to:
    not empty, not ["."], not [".."], and free of separators. *)
Definition entry_name (c : str) : bool :=
  str_truthy c && negb (str_eqb c [dot]) && negb (str_eqb c [dot; dot])
  && forallb (fun x => negb (char_eqb x slash)) c.

(** [p] lies directly inside directory [d]: [d] extended by one entry. *)
Definition directly_inside (d p : path) : bool :=
  str_eqb (root p) (root d)
  && strs_eqb (removelast (parts p)) (parts d)
  && match parts p with [] => false | _ => entry_name (name p) end.

(** ** Exceptions *)

(** The text of an exception, kept as the template that built it and the
    values interpolated into it. *)
Inductive message :=
| MsgPageRange (total_pages : Z)          (* pdf2tts.py line 31 *)
| MsgNoText                               (* pdf2tts.py line 60 *)
| MsgTooLarge (limit text_length : Z)     (* pdf2tts.py lines 64-67 *)
| MsgLibrary (text : str).                (* raised by a collaborator *)

Inductive http_detail :=
| DetailUnsupported                       (* service.py line 26 *)
| DetailReadFailed                        (* service.py line 40 *)
| DetailStr (m : message)                 (* str(exc), service.py line 55 *)
| DetailGenerateFailed.                   (* service.py line 58 *)

(** Every exception of the model is an instance of [Exception].
    [ValueError] stands for that class and its subclasses, [LibraryError]
    for any collaborator exception outside [ValueError]. *)
Inductive exn :=
| ValueError (m : message)
| KeyError (key : str)
| IndexError (index : Z)
| LibraryError (text : str)
| HTTPException (status_code : Z) (detail : http_detail).

Definition isinstance_ValueError (e : exn) : bool :=
  match e with ValueError _ => true | _ => false end.

(** What a call into a collaborator does: return a value, or raise an
    exception, of which the code observes whether it is a [ValueError] and
    its text. *)
Inductive outcome (A : Type) :=
| Returns (a : A)
| Raises (is_value_error : bool) (text : str).
Arguments Returns {A} a.
Arguments Raises {A} is_value_error text.

Definition library_exn (is_value_error : bool) (text : str) : exn :=
  if is_value_error then ValueError (MsgLibrary text) else LibraryError text.

(** ** The world and the monad *)

Definition bytes := list Byte.byte.

(** A Python [float]: an IEEE 754 binary64 datum.  [1.0] is the default
    speed of the command line and of the form. *)
Definition float := spec_float.

Definition float_one : float := S754_finite false 4503599627370496 (-52).

(** The ttsfm request built at pdf2tts.py lines 75-83. *)
Inductive AudioFormat := MP3.

Record SynthesisRequest := mkRequest {
  text : str;
  voice : str;
  response_format : AudioFormat;
  speed : float;
  max_length : Z;
  preserve_words : bool;
  auto_combine : bool
}.

Inductive event :=
| EMkdtemp (d : path)                 (* tempfile.mkdtemp *)
| ERead                               (* await pdf.read() *)
| EWriteBytes (p : path)              (* pdf_path.write_bytes *)
| EOpen (p : str)                     (* pymupdf.open *)
| EGetText (i : Z)                    (* doc[i].get_text("text") *)
| EClose                              (* doc.close() *)
| ESpeech (r : SynthesisRequest)      (* client.generate_speech_long_text *)
| ESaveToFile (p : str)               (* resp.save_to_file *)
| ERmtree (d : path)                  (* shutil.rmtree *)
| EErrorResponse (status_code : Z)    (* an error response is produced *)
| EBodySent (p : str).                (* the response body is transmitted *)

Record world := mkWorld {
  trace : list event;       (* oldest first *)
  dirs : list path;         (* temporary directories on disk *)
  open_docs : nat           (* document handles currently open *)
}.

Inductive result (A : Type) :=
| Ok (a : A)
| Raise (e : exn).
Arguments Ok {A} a.
Arguments Raise {A} e.

Definition M (A : Type) : Type := world -> result A * world.

Definition ret {A} (a : A) : M A := fun w => (Ok a, w).

Definition raise {A} (e : exn) : M A := fun w => (Raise e, w).

Definition bind {A B} (m : M A) (k : A -> M B) : M B :=
  fun w =>
    match m w with
    | (Ok a, w') => k a w'
    | (Raise e, w') => (Raise e, w')
    end.

(** [try: m  except Exception as exc: h exc]. *)
Definition try_except {A} (m : M A) (h : exn -> M A) : M A :=
  fun w =>
    match m w with
    | (Ok a, w') => (Ok a, w')
    | (Raise e, w') => h e w'
    end.

Declare Scope py_scope.
Delimit Scope py_scope with py.
Notation "x <- m ;; k" := (bind m (fun x => k))
  (at level 61, m at next level, right associativity) : py_scope.
Notation "m ;; k" := (bind m (fun _ => k))
  (at level 61, right associativity) : py_scope.
Open Scope py_scope.

Definition log (e : event) : M unit :=
  fun w => (Ok tt, mkWorld (trace w ++ [e]) (dirs w) (open_docs w)).

(** Lift a collaborator's outcome into the monad. *)
Definition call {A} (o : outcome A) : M A :=
  match o with
  | Returns a => ret a
  | Raises v t => raise (library_exn v t)
  end.

Fixpoint for_each {A S} (xs : list A) (body : A -> S -> M S) (s : S) : M S :=
  match xs with
  | [] => ret s
  | x :: rest => s' <- body x s ;; for_each rest body s'
  end.

(** [range(a, b)]. *)
Definition range (a b : Z) : list Z :=
  map (fun k => a + Z.of_nat k) (seq 0 (Z.to_nat (b - a))).

(** ** Collaborators *)

(** An open PyMuPDF document: for each page, what
    [doc[i].get_text("text")] returns or raises. *)
Definition Document := list (outcome str).

(** The audio object returned by the synthesis engine. *)
Definition Speech := bytes.

(** What [FileResponse.__call__] of Starlette does with the response the
    handler returned, under the headers of the request (starlette
    0.46, responses.py lines 339-376).  Only [BodySent] reaches the last
    statement of that method, which runs the background tasks. *)
Inductive file_send :=
| BodySent                (* the body, whole or the ranges asked for, is sent *)
| FileMissing             (* os.stat fails: RuntimeError, does not exist *)
| NotAFile                (* not a regular file: RuntimeError *)
| RangeMalformed          (* Range header unreadable: plain text, 400 *)
| RangeNotSatisfiable.    (* Range outside the file: plain text, 416 *)

(** What the collaborators do during one run. *)
Record Env := mkEnv {
  mkdtemp_name : str;                       (* tempfile.mkdtemp(prefix=...) *)
  pdf_read : outcome bytes;                 (* await pdf.read() *)
  write_bytes : path -> bytes -> outcome unit;
  pymupdf_open : str -> outcome Document;
  upper : str -> str;                       (* str.upper *)
  Voice_getitem : str -> option str;        (* Voice[key], None: KeyError *)
  generate_speech_long_text : SynthesisRequest -> outcome Speech;
  save_to_file : Speech -> str -> outcome unit;
  file_response_call : str -> file_send     (* FileResponse(path).__call__ *)
}.

Definition page_count (doc : Document) : Z := Z.of_nat (length doc).

(** [pymupdf.open(pdf_path)]: a handle is open once the call returns. *)
Definition doc_open (env : Env) (pdf_path : str) : M Document :=
  log (EOpen pdf_path) ;;
  doc <- call (pymupdf_open env pdf_path) ;;
  (fun w => (Ok doc, mkWorld (trace w) (dirs w) (S (open_docs w)))).

(** [doc.close()]. *)
Definition doc_close : M unit :=
  log EClose ;;
  (fun w => (Ok tt, mkWorld (trace w) (dirs w) (Nat.pred (open_docs w)))).

(** [doc[i].get_text("text")].  An index outside [0, page_count) raises
    [IndexError]; the loop of [extract_text_from_pdf] never produces one. *)
Definition get_text (doc : Document) (i : Z) : M str :=
  log (EGetText i) ;;
  if (i <? 0) || (page_count doc <=? i) then raise (IndexError i)
  else match nth_error doc (Z.to_nat i) with
       | Some o => call o
       | None => raise (IndexError i)
       end.

(** ** pdf2tts.py *)

(** Truth value of an [Optional[int]]: [None] and [0] are falsy. *)
Definition int_truthy (x : option Z) : bool :=
  match x with
  | None => false
  | Some n => negb (n =? 0)
  end.

Definition int_value (x : option Z) : Z :=
  match x with Some n => n | None => 0 end.

(** Line 26: [sp = start_page - 1 if start_page else 0]. *)
Definition resolve_sp (start_page : option Z) : Z :=
  if int_truthy start_page then int_value start_page - 1 else 0.

(** Line 27: [ep = end_page if end_page else total_pages]. *)
Definition resolve_ep (end_page : option Z) (total_pages : Z) : Z :=
  if int_truthy end_page then int_value end_page else total_pages.

(** Line 29. *)
Definition range_invalid (sp ep total_pages : Z) : bool :=
  (sp <? 0) || (sp >=? total_pages) || (ep <? 1) || (ep >? total_pages)
  || (sp >=? ep).

Definition page_separator : str := [newline; newline].

(** Lines 23-38, on the document just opened. *)
Definition extract_pages (doc : Document)
    (start_page end_page : option Z) : M str :=
  let texts : list str := [] in
  let total_pages := page_count doc in
  let sp := resolve_sp start_page in
  let ep := resolve_ep end_page total_pages in
  if range_invalid sp ep total_pages then
    doc_close ;;
    raise (ValueError (MsgPageRange total_pages))
  else
    texts <- for_each (range sp ep)
               (fun i texts => t <- get_text doc i ;; ret (texts ++ [t]))
               texts ;;
    doc_close ;;
    ret (join page_separator texts).

Definition extract_text_from_pdf (env : Env) (pdf_path : str)
    (start_page end_page : option Z) : M str :=
  doc <- doc_open env pdf_path ;;
  extract_pages doc start_page end_page.

(** Lines 59-89: the checks on the extracted text and the synthesis. *)
Definition synthesize (env : Env) (full_text mp3_path : str)
    (voice : str) (speed : float) (max_length : Z) : M unit :=
  if negb (str_truthy (strip full_text)) then
    raise (ValueError MsgNoText)
  else
    let text_length := len full_text in
    if text_length >? 50000 then
      raise (ValueError (MsgTooLarge 50000 text_length))
    else
      v <- match Voice_getitem env (upper env voice) with
           | Some v => ret v
           | None => raise (KeyError (upper env voice))
           end ;;
      let request := mkRequest full_text v MP3 speed max_length true true in
      log (ESpeech request) ;;
      resp <- call (generate_speech_long_text env request) ;;
      let out_path := Path mp3_path in
      log (ESaveToFile (path_str out_path)) ;;
      call (save_to_file env resp (path_str out_path)).

Definition pdf_to_mp3_with_ttsfm (env : Env) (pdf_path mp3_path : str)
    (voice : str) (speed : float) (max_length : Z)
    (start_page end_page : option Z) : M unit :=
  full_text <- extract_text_from_pdf env pdf_path start_page end_page ;;
  synthesize env full_text mp3_path voice speed max_length.

(** ** service.py *)

Record UploadFile := mkUpload {
  content_type : option str;
  filename : option str
}.

(** The only task the service schedules is a directory deletion. *)
Inductive task :=
| TaskRmtree (d : path).

Definition BackgroundTasks := list task.

Record FileResponse := mkFileResponse {
  response_path : str;
  media_type : str;
  response_filename : str;
  background : BackgroundTasks
}.

(** [tempfile.mkdtemp]: the directory exists when the call returns. *)
Definition mkdtemp (env : Env) : M str :=
  fun w =>
    let d := mkdtemp_name env in
    (Ok d, mkWorld (trace w ++ [EMkdtemp (Path d)]) (Path d :: dirs w)
                   (open_docs w)).

(** [shutil.rmtree(d, ignore_errors=True)]: never raises. *)
Definition rmtree (d : path) : M unit :=
  fun w =>
    (Ok tt, mkWorld (trace w ++ [ERmtree d])
                    (filter (fun x => negb (path_eqb x d)) (dirs w))
                    (open_docs w)).

(** Line 25: membership in
    [("application/pdf", "application/octet-stream", None)]. *)
Definition content_type_allowed (ct : option str) : bool :=
  match ct with
  | None => true
  | Some s => str_eqb s (lit "application/pdf")
              || str_eqb s (lit "application/octet-stream")
  end.

(** [pdf.filename or "input.pdf"]. *)
Definition filename_or_default (fn : option str) : str :=
  match fn with
  | Some s => if str_truthy s then s else lit "input.pdf"
  | None => lit "input.pdf"
  end.

(** Lines 32-33: the staged input path and the output path. *)
Definition staged_paths (temp_dir : path) (fn : option str) : path * path :=
  let pdf_path := truediv temp_dir (name (Path (filename_or_default fn))) in
  let mp3_path := truediv temp_dir (stem pdf_path ++ lit ".mp3") in
  (pdf_path, mp3_path).

(** The handler.  [run_in_threadpool] runs [pdf_to_mp3_with_ttsfm] on a
    worker thread and hands back its result or its exception, so the
    call is taken as a direct one. *)
Definition convert_pdf (env : Env) (pdf : UploadFile) (voice : str)
    (speed : float) (max_length : Z) (start_page end_page : option Z)
    (background_tasks : option BackgroundTasks) : M FileResponse :=
  if negb (content_type_allowed (content_type pdf)) then
    raise (HTTPException 400 DetailUnsupported)
  else
    let background_tasks :=
      match background_tasks with Some b => b | None => [] end in
    d <- mkdtemp env ;;
    let temp_dir := Path d in
    let '(pdf_path, mp3_path) := staged_paths temp_dir (filename pdf) in
    try_except
      (log ERead ;;
       pdf_bytes <- call (pdf_read env) ;;
       log (EWriteBytes pdf_path) ;;
       call (write_bytes env pdf_path pdf_bytes))
      (fun exc =>
         rmtree temp_dir ;;
         raise (HTTPException 400 DetailReadFailed)) ;;
    try_except
      (pdf_to_mp3_with_ttsfm env (path_str pdf_path) (path_str mp3_path)
         voice speed max_length start_page end_page)
      (fun exc =>
         match exc with
         | ValueError m =>
             rmtree temp_dir ;;
             raise (HTTPException 400 (DetailStr m))
         | _ =>
             rmtree temp_dir ;;
             raise (HTTPException 500 DetailGenerateFailed)
         end) ;;
    let background_tasks := background_tasks ++ [TaskRmtree temp_dir] in
    ret (mkFileResponse (path_str mp3_path) (lit "audio/mpeg")
           (stem pdf_path ++ lit ".mp3") background_tasks).

(** ** The framework around the handler *)

Inductive http_response :=
| ErrorResponse (status_code : Z) (detail : http_detail)
| AudioResponse (r : FileResponse)
| PlainTextResponse (status_code : Z).

Definition run_task (t : task) : M unit :=
  match t with
  | TaskRmtree d => rmtree d
  end.

Fixpoint run_tasks (ts : BackgroundTasks) : M unit :=
  match ts with
  | [] => ret tt
  | t :: rest => run_task t ;; run_tasks rest
  end.

(** [FileResponse.__call__] (starlette 0.46, responses.py lines
    339-376), which the framework runs on the response the handler of
    service.py returns.  A missing or irregular file raises
    [RuntimeError] (lines 341-350) and a refused Range header is answered
    in plain text with 400 or 416 (lines 360-366), in both cases without
    the background tasks; otherwise the body is sent and then, as the
    last statement (lines 375-376), the [background] tasks are run, in
    the order added. *)
Definition send_file_response (env : Env) (r : FileResponse)
  : M http_response :=
  match file_response_call env (response_path r) with
  | BodySent =>
      log (EBodySent (response_path r)) ;;
      run_tasks (background r) ;;
      ret (AudioResponse r)
  | FileMissing =>
      raise (LibraryError
               (lit "File at path " ++ response_path r
                  ++ lit " does not exist."))
  | NotAFile =>
      raise (LibraryError
               (lit "File at path " ++ response_path r ++ lit " is not a file."))
  | RangeMalformed =>
      log (EErrorResponse 400) ;;
      ret (PlainTextResponse 400)
  | RangeNotSatisfiable =>
      log (EErrorResponse 416) ;;
      ret (PlainTextResponse 416)
  end.

(** What FastAPI and Starlette do around the handler: an [HTTPException]
    becomes the error response with its status and detail (starlette
    middleware/exceptions.py); a returned [FileResponse] is called to send
    itself; any other exception, from the handler or from the response,
    is answered by the server with a plain "Internal Server Error",
    status 500 (middleware/errors.py, line 260). *)
Definition serve (env : Env) (pdf : UploadFile) (voice : str)
    (speed : float) (max_length : Z) (start_page end_page : option Z)
    (background_tasks : option BackgroundTasks) : M http_response :=
  try_except
    (r <- convert_pdf env pdf voice speed max_length start_page end_page
            background_tasks ;;
     send_file_response env r)
    (fun exc =>
       match exc with
       | HTTPException status detail =>
           log (EErrorResponse status) ;;
           ret (ErrorResponse status detail)
       | _ =>
           log (EErrorResponse 500) ;;
           ret (PlainTextResponse 500)
       end).

Definition initial_world (ds : list path) : world := mkWorld [] ds 0.

Definition is_rmtree (d : path) (e : event) : bool :=
  match e with ERmtree x => path_eqb x d | _ => false end.

Definition is_mkdtemp (e : event) : bool :=
  match e with EMkdtemp _ => true | _ => false end.

Definition is_get_text (e : event) : bool :=
  match e with EGetText _ => true | _ => false end.

Definition is_speech (e : event) : bool :=
  match e with ESpeech _ => true | _ => false end.

(** Events of the conversion pipeline of pdf2tts.py. *)
Definition pipeline_event (e : event) : bool :=
  match e with
  | EOpen _ | EGetText _ | EClose | ESpeech _ | ESaveToFile _ => true
  | _ => false
  end.

Definition count (f : event -> bool) (tr : list event) : nat :=
  length (filter f tr).

(** ** pdf2tts.py: the command line *)

(** [p.suffix]: the last dot of the name and what follows it, unless that
    dot is the first or the last character. *)
Definition suffix (p : path) : str :=
  let n := name p in
  let i := rfind dot n in
  if (0 <? i) && (i <? len n - 1) then skipn (Z.to_nat i) n else [].

(** [p.with_suffix(".mp3")] (line 121).  The two checks on the new suffix
    pass for the literal [".mp3"]; a path without a name raises
    [ValueError], whose text holds the [repr] of the path, and such a path
    prints as ["."], ["/"] or ["//"]. *)
Definition with_suffix_mp3 (p : path) : outcome path :=
  let n := name p in
  if negb (str_truthy n) then
    Raises true (lit "PosixPath('" ++ path_str p ++ lit "') has an empty name")
  else
    let old_suffix := suffix p in
    let n' :=
      if negb (str_truthy old_suffix) then n ++ lit ".mp3"
      else firstn (length n - length old_suffix) n ++ lit ".mp3" in
    Returns (mkPath (root p) (removelast (parts p) ++ [n'])).

Module Cli.

(** What [parser.parse_args()] returns (lines 93-118): argparse has
    already applied the defaults and the [int] and [float] conversions. *)
Record Namespace := mkNamespace {
  pdf : str;
  out : option str;
  voice : str;
  speed : float;
  max_length : Z;
  start_page : option Z;
  end_page : option Z
}.

(** Lines 120-131 of [main], on the parsed arguments. *)
Definition main (env : Env) (args : Namespace) : M unit :=
  let pdf_path := pdf args in
  let default_out :=
    p <- call (with_suffix_mp3 (Path pdf_path)) ;; ret (path_str p) in
  out_path <- match out args with
              | Some o => if str_truthy o then ret o else default_out
              | None => default_out
              end ;;
  pdf_to_mp3_with_ttsfm env pdf_path out_path (voice args) (speed args)
    (max_length args) (start_page args) (end_page args).

End Cli.

(** ** Vocabulary of the proofs *)

(** The world after some events were appended and the count of open
    handles went through [f]; the directories are untouched. *)
Definition emit (evs : list event) (f : nat -> nat) (w : world) : world :=
  mkWorld (trace w ++ evs) (dirs w) (f (open_docs w)).

(** A computation whose result and events are the same from every world,
    whose events all satisfy [P], and which leaves the directories alone. *)
Definition uniform {A} (P : event -> bool) (m : M A) : Prop :=
  exists r evs f,
    forallb P evs = true /\ forall w, m w = (r, emit evs f w).

(** Events of [extract_text_from_pdf]. *)
Definition extraction_event (e : event) : bool :=
  match e with
  | EOpen _ | EGetText _ | EClose => true
  | _ => false
  end.

(** Exceptions that reading a page can raise. *)
Definition page_failure (e : exn) : bool :=
  match e with
  | IndexError _ | LibraryError _ | ValueError (MsgLibrary _) => true
  | _ => false
  end.

(** ** Sample collaborators *)

Definition ascii_upper (c : char) : char :=
  if ((97 <=? c) && (c <=? 122))%N then (c - 32)%N else c.

(** The voices listed by the command-line help of pdf2tts.py. *)
Definition voices : list str :=
  [lit "ALLOY"; lit "ECHO"; lit "FABLE"; lit "ONYX"; lit "NOVA";
   lit "SHIMMER"].

(** An environment in which every collaborator succeeds, except as set by
    the two arguments: what [pymupdf.open] does and what the synthesis
    engine does. *)
Definition sample_env (opened : outcome Document) (spoken : outcome Speech)
  : Env :=
  mkEnv (lit "/tmp/pdf2tts_k3x9")
        (Returns [])
        (fun _ _ => Returns tt)
        (fun _ => opened)
        (map ascii_upper)
        (fun k => if existsb (str_eqb k) voices then Some k else None)
        (fun _ => spoken)
        (fun _ _ => Returns tt)
        (fun _ => BodySent).

Definition three_pages : Document :=
  [Returns (lit "A"); Returns (lit "B"); Returns (lit "C")].

Definition one_page : Document := [Returns (lit "A")].

(** A document whose only page cannot be read. *)
Definition broken_page : Document := [Raises false (lit "cannot load page")].

(** 50001 spaces, and a page holding them. *)
Definition blank_text : str := repeat 32%N (N.to_nat 50001).

Definition blank_page : Document := [Returns blank_text].

(** 50001 letters, and a page holding them. *)
Definition long_text : str := repeat 97%N (N.to_nat 50001).

Definition long_page : Document := [Returns long_text].

(** ** Vocabulary of the service proofs *)

Definition temp_dir_of (env : Env) : path := Path (mkdtemp_name env).

Definition pdf_path_of (env : Env) (pdf : UploadFile) : path :=
  fst (staged_paths (temp_dir_of env) (filename pdf)).

Definition mp3_path_of (env : Env) (pdf : UploadFile) : path :=
  snd (staged_paths (temp_dir_of env) (filename pdf)).

(** The world once the upload has been written into the new directory. *)
Definition staged_world (env : Env) (pdf : UploadFile) (ds : list path)
  : world :=
  mkWorld [EMkdtemp (temp_dir_of env); ERead;
           EWriteBytes (pdf_path_of env pdf)]
          (temp_dir_of env :: ds) 0.

(** The status an exception of the pipeline is answered with
    (service.py lines 53-58). *)
Definition status_of (e : exn) : Z :=
  if isinstance_ValueError e then 400 else 500.

Definition detail_of (e : exn) : http_detail :=
  match e with
  | ValueError m => DetailStr m
  | _ => DetailGenerateFailed
  end.

(** The status with which a response that is not sent is answered. *)
Definition refusal_status (s : file_send) : option Z :=
  match s with
  | BodySent => None
  | FileMissing | NotAFile => Some 500
  | RangeMalformed => Some 400
  | RangeNotSatisfiable => Some 416
  end.

Definition task_event (t : task) : event :=
  match t with TaskRmtree x => ERmtree x end.

Definition remove_dir (d : path) (ds : list path) : list path :=
  filter (fun x => negb (path_eqb x d)) ds.

Definition remove_dirs (ts : BackgroundTasks) (ds : list path) : list path :=
  fold_left (fun acc t => match t with TaskRmtree x => remove_dir x acc end)
    ts ds.

(** Uploads: a PDF, and a text file. *)
Definition pdf_upload : UploadFile :=
  mkUpload (Some (lit "application/pdf")) (Some (lit "book.pdf")).

Definition text_upload : UploadFile :=
  mkUpload (Some (lit "text/plain")) (Some (lit "x.txt")).

(** A string free of path separators. *)
Definition no_slash (c : str) : bool :=
  forallb (fun x => negb (char_eqb x slash)) c.

(** A document whose second page cannot be read. *)
Definition second_page_broken : Document :=
  [Returns (lit "A"); Raises true (lit "document closed or encrypted");
   Returns (lit "C")].

Definition is_save (e : event) : bool :=
  match e with ESaveToFile _ => true | _ => false end.

(** A path as parsing produces it: one of the three roots, and
    components that are non-empty, not ["."] and free of separators. *)
Definition parsed (p : path) : Prop :=
  (root p = [] \/ root p = [slash] \/ root p = [slash; slash])
  /\ Forall (fun c => keeps c = true /\ no_slash c = true) (parts p).

(** An environment in which the conversion succeeds and [decides] says
    what becomes of the response. *)
Definition sending_env (decides : file_send) : Env :=
  mkEnv (lit "/tmp/pdf2tts_k3x9")
        (Returns [])
        (fun _ _ => Returns tt)
        (fun _ => Returns one_page)
        (map ascii_upper)
        (fun k => if existsb (str_eqb k) voices then Some k else None)
        (fun _ => Returns [])
        (fun _ _ => Returns tt)
        (fun _ => decides).

(** The resolution of a page range as the specification words it:
    one-based inclusive page numbers become zero-based half-open bounds,
    an absent start giving 0 and an absent end the page count. *)
Definition spec_sp (start_page : option Z) : Z :=
  match start_page with Some n => n - 1 | None => 0 end.

Definition spec_ep (end_page : option Z) (total_pages : Z) : Z :=
  match end_page with Some n => n | None => total_pages end.

(** An environment in which reading the upload fails. *)
Definition unreadable_env : Env :=
  mkEnv (lit "/tmp/pdf2tts_k3x9")
        (Raises false (lit "client disconnected"))
        (fun _ _ => Returns tt)
        (fun _ => Returns one_page)
        (map ascii_upper)
        (fun k => if existsb (str_eqb k) voices then Some k else None)
        (fun _ => Returns [])
        (fun _ _ => Returns tt)
        (fun _ => BodySent).

(** Command lines: [book.pdf] alone, and an empty input path. *)
Definition plain_args : Cli.Namespace :=
  Cli.mkNamespace (lit "docs/book.v2.pdf") None (lit "alloy") float_one 1000
    None None.

Definition nameless_args : Cli.Namespace :=
  Cli.mkNamespace (lit "./") None (lit "alloy") float_one 1000 None None.

(** * Properties *)

(** ** Strings *)

Lemma str_eqb_eq (a b : str) : str_eqb a b = true <-> a = b.
Proof.
  revert b; induction a as [|x a IH]; intros [|y b]; simpl;
    try (split; [discriminate | discriminate]); try tauto.
  unfold char_eqb. rewrite andb_true_iff, N.eqb_eq, IH.
  split; [intros [-> ->]; reflexivity | intros H; inversion H; auto].
Qed.

Lemma str_eqb_refl (a : str) : str_eqb a a = true.
Proof. apply str_eqb_eq; reflexivity. Qed.

Lemma strs_eqb_eq (a b : list str) : strs_eqb a b = true <-> a = b.
Proof.
  revert b; induction a as [|x a IH]; intros [|y b]; simpl;
    try (split; [discriminate | discriminate]); try tauto.
  rewrite andb_true_iff, str_eqb_eq, IH.
  split; [intros [-> ->]; reflexivity | intros H; inversion H; auto].
Qed.

Lemma path_eqb_eq (p q : path) : path_eqb p q = true <-> p = q.
Proof.
  destruct p as [r1 p1], q as [r2 p2]; unfold path_eqb; simpl.
  rewrite andb_true_iff, str_eqb_eq, strs_eqb_eq.
  split; [intros [-> ->]; reflexivity | intros H; inversion H; auto].
Qed.

Lemma path_eqb_refl (p : path) : path_eqb p p = true.
Proof. apply path_eqb_eq; reflexivity. Qed.

Lemma lstrip_all_space (s : str) :
  lstrip s = [] <-> forallb isspace s = true.
Proof.
  induction s as [|c s IH]; simpl; [tauto|].
  destruct (isspace c); simpl; [exact IH | split; discriminate].
Qed.

Lemma lstrip_head (s : str) :
  match lstrip s with [] => True | c :: _ => isspace c = false end.
Proof.
  induction s as [|c s IH]; simpl; [exact I|].
  destruct (isspace c) eqn:E; [exact IH | exact E].
Qed.

(** [s.strip()] is empty exactly when [s] holds only whitespace. *)
Lemma strip_empty_iff (s : str) :
  strip s = [] <-> forallb isspace s = true.
Proof.
  unfold strip, rstrip. rewrite <- lstrip_all_space. split.
  - intros H. destruct (lstrip s) as [|c r] eqn:E; [reflexivity|].
    exfalso. pose proof (lstrip_head s) as Hh. rewrite E in Hh.
    assert (Hr : lstrip (rev (c :: r)) = []).
    { apply (f_equal (@rev _)) in H. rewrite rev_involutive in H.
      exact H. }
    apply lstrip_all_space in Hr. rewrite forallb_forall in Hr.
    specialize (Hr c). rewrite Hr in Hh; [discriminate|].
    apply in_rev. rewrite rev_involutive. left; reflexivity.
  - intros ->. reflexivity.
Qed.

(** ** The monad *)

Lemma emit_nil (w : world) : emit [] (fun n => n) w = w.
Proof. destruct w; unfold emit; simpl. now rewrite app_nil_r. Qed.

Lemma emit_emit (e1 e2 : list event) (f1 f2 : nat -> nat) (w : world) :
  emit e2 f2 (emit e1 f1 w) = emit (e1 ++ e2) (fun n => f2 (f1 n)) w.
Proof. unfold emit; simpl. now rewrite app_assoc. Qed.

Lemma bind_ok {A B} (m : M A) (k : A -> M B) w a w' :
  m w = (Ok a, w') -> bind m k w = k a w'.
Proof. unfold bind; now intros ->. Qed.

Lemma bind_raise {A B} (m : M A) (k : A -> M B) w e w' :
  m w = (Raise e, w') -> bind m k w = (Raise e, w').
Proof. unfold bind; now intros ->. Qed.

Lemma log_run (e : event) (w : world) :
  log e w = (Ok tt, emit [e] (fun n => n) w).
Proof. reflexivity. Qed.

Section Uniform.
Context {A B : Type} (P : event -> bool).

Lemma uniform_ret (a : A) : uniform P (ret a).
Proof.
  exists (Ok a), [], (fun n => n); split; [reflexivity|].
  intros w; unfold ret; now rewrite emit_nil.
Qed.

Lemma uniform_raise (e : exn) : uniform P (@raise A e).
Proof.
  exists (Raise e), [], (fun n => n); split; [reflexivity|].
  intros w; unfold raise; now rewrite emit_nil.
Qed.

Lemma uniform_call (o : outcome A) : uniform P (call o).
Proof. destruct o; [apply uniform_ret | apply uniform_raise]. Qed.

Lemma uniform_bind (m : M A) (k : A -> M B) :
  uniform P m -> (forall a, uniform P (k a)) -> uniform P (bind m k).
Proof.
  intros (r & evs & f & Hev & Hm) Hk.
  destruct r as [a|e].
  - destruct (Hk a) as (r' & evs' & f' & Hev' & Hk').
    exists r', (evs ++ evs'), (fun n => f' (f n)); split.
    + rewrite forallb_app, Hev, Hev'; reflexivity.
    + intros w. rewrite (bind_ok _ _ _ _ _ (Hm w)), Hk'.
      now rewrite emit_emit.
  - exists (Raise e), evs, f; split; [exact Hev|].
    intros w. now rewrite (bind_raise _ _ _ _ _ (Hm w)).
Qed.
End Uniform.

Lemma uniform_log (P : event -> bool) (e : event) :
  P e = true -> uniform P (log e).
Proof.
  intros He. exists (Ok tt), [e], (fun n => n); split.
  - simpl; now rewrite He.
  - intros w; apply log_run.
Qed.

Lemma uniform_mono {A} (P Q : event -> bool) (m : M A) :
  (forall e, P e = true -> Q e = true) -> uniform P m -> uniform Q m.
Proof.
  intros HPQ (r & evs & f & Hev & Hm). exists r, evs, f; split; [|exact Hm].
  rewrite forallb_forall in *. auto.
Qed.

Lemma uniform_for_each {A S} (P : event -> bool) (xs : list A)
    (body : A -> S -> M S) :
  (forall x s, uniform P (body x s)) ->
  forall s, uniform P (for_each xs body s).
Proof.
  intros Hb. induction xs as [|x xs IH]; intros s; simpl.
  - apply uniform_ret.
  - apply uniform_bind; [apply Hb | exact IH].
Qed.

Lemma uniform_handles {A} (P : event -> bool) (a : A) (f : nat -> nat) :
  uniform P (fun w => (Ok a, mkWorld (trace w) (dirs w) (f (open_docs w)))).
Proof.
  exists (Ok a), [], f; split; [reflexivity|].
  intros w; unfold emit; now rewrite app_nil_r.
Qed.

Create HintDb uniform.
#[local] Hint Resolve uniform_ret uniform_raise uniform_call uniform_bind
  uniform_log uniform_for_each uniform_handles : uniform.

(** ** Extraction *)

Lemma uniform_doc_open env p : uniform extraction_event (doc_open env p).
Proof. unfold doc_open. auto 10 with uniform. Qed.

Lemma uniform_doc_close : uniform extraction_event doc_close.
Proof. unfold doc_close. auto 10 with uniform. Qed.

Lemma uniform_get_text doc i : uniform extraction_event (get_text doc i).
Proof.
  unfold get_text. apply uniform_bind; [auto with uniform|]. intros _.
  destruct ((i <? 0) || (page_count doc <=? i)); [auto with uniform|].
  destruct (nth_error doc (Z.to_nat i)); auto with uniform.
Qed.

#[local] Hint Resolve uniform_doc_open uniform_doc_close uniform_get_text
  : uniform.

Lemma uniform_extract_pages doc start_page end_page :
  uniform extraction_event (extract_pages doc start_page end_page).
Proof.
  unfold extract_pages.
  destruct (range_invalid _ _ _); auto 10 with uniform.
Qed.

Lemma uniform_extract env p start_page end_page :
  uniform extraction_event (extract_text_from_pdf env p start_page end_page).
Proof.
  unfold extract_text_from_pdf.
  apply uniform_bind; [auto with uniform|].
  intros doc; apply uniform_extract_pages.
Qed.

Lemma extraction_is_pipeline e :
  extraction_event e = true -> pipeline_event e = true.
Proof. destruct e; simpl; congruence. Qed.

Lemma uniform_synthesize env full_text mp3_path voice speed max_length :
  uniform pipeline_event
    (synthesize env full_text mp3_path voice speed max_length).
Proof.
  unfold synthesize.
  destruct (negb _); [auto with uniform|].
  destruct (_ >? _); [auto with uniform|].
  apply uniform_bind.
  - destruct (Voice_getitem env _); auto with uniform.
  - intros v. auto 10 with uniform.
Qed.

Lemma uniform_pdf_to_mp3 env pdf_path mp3_path voice speed max_length
    start_page end_page :
  uniform pipeline_event
    (pdf_to_mp3_with_ttsfm env pdf_path mp3_path voice speed max_length
       start_page end_page).
Proof.
  unfold pdf_to_mp3_with_ttsfm. apply uniform_bind.
  - eapply uniform_mono; [apply extraction_is_pipeline|apply uniform_extract].
  - intros t; apply uniform_synthesize.
Qed.

Lemma doc_open_run env p doc w :
  pymupdf_open env p = Returns doc ->
  doc_open env p w = (Ok doc, emit [EOpen p] S w).
Proof. intros H. unfold doc_open, bind, log, call. simpl. now rewrite H. Qed.

Lemma doc_open_fails env p v t w :
  pymupdf_open env p = Raises v t ->
  doc_open env p w = (Raise (library_exn v t), emit [EOpen p] (fun n => n) w).
Proof. intros H. unfold doc_open, bind, log, call. simpl. now rewrite H. Qed.

Lemma doc_close_run w : doc_close w = (Ok tt, emit [EClose] Nat.pred w).
Proof. reflexivity. Qed.

Lemma get_text_run doc k o w :
  nth_error doc k = Some o ->
  get_text doc (Z.of_nat k) w
  = (match o with
     | Returns t => Ok t
     | Raises v t => Raise (library_exn v t)
     end, emit [EGetText (Z.of_nat k)] (fun n => n) w).
Proof.
  intros H. unfold get_text, bind. rewrite log_run.
  assert (Hk : (k < length doc)%nat) by (apply nth_error_Some; congruence).
  replace ((Z.of_nat k <? 0) || (page_count doc <=? Z.of_nat k)) with false
    by (unfold page_count; symmetry; apply orb_false_iff; split;
        [apply Z.ltb_ge | apply Z.leb_gt]; lia).
  rewrite Nat2Z.id, H. destruct o; reflexivity.
Qed.

(** The loop of lines 33-35 over pages that all yield text. *)
Lemma loop_reads_pages doc ks ts :
  Forall2 (fun k t => nth_error doc k = Some (Returns t)) ks ts ->
  forall acc w,
    for_each (map Z.of_nat ks)
      (fun i texts => t <- get_text doc i ;; ret (texts ++ [t])) acc w
    = (Ok (acc ++ ts),
       emit (map EGetText (map Z.of_nat ks)) (fun n => n) w).
Proof.
  induction 1 as [|k t ks ts Hk _ IH]; intros acc w; simpl.
  - unfold ret. now rewrite app_nil_r, emit_nil.
  - unfold bind at 1. unfold bind at 1.
    rewrite (get_text_run _ _ _ _ Hk). unfold ret at 1.
    rewrite IH, emit_emit, <- app_assoc. reflexivity.
Qed.

(** Whatever the pages do, the loop only reads pages, and it fails only
    with a page failure. *)
Lemma loop_frame doc idxs :
  forall acc w,
  exists r evs,
    for_each idxs
      (fun i texts => t <- get_text doc i ;; ret (texts ++ [t])) acc w
    = (r, emit evs (fun n => n) w)
    /\ forallb is_get_text evs = true
    /\ match r with Ok _ => True | Raise e => page_failure e = true end.
Proof.
  induction idxs as [|i idxs IH]; intros acc w; simpl.
  - exists (Ok acc), []. unfold ret. now rewrite emit_nil.
  - unfold bind at 1. unfold bind at 1. unfold get_text at 1.
    unfold bind at 1. rewrite log_run.
    assert (Hcall : forall (o : outcome str) w0,
      exists r : result str, call o w0 = (r, w0)
        /\ match r with Ok _ => True | Raise e => page_failure e = true end).
    { intros [t|v t] w0; simpl; eexists; (split; [reflexivity|]);
        [exact I | destruct v; reflexivity]. }
    destruct ((i <? 0) || (page_count doc <=? i)).
    + exists (Raise (IndexError i)), [EGetText i]. now simpl.
    + destruct (nth_error doc (Z.to_nat i)) as [o|].
      * destruct (Hcall o (emit [EGetText i] (fun n => n) w))
          as (r & -> & Hr).
        destruct r as [t|e].
        -- unfold ret at 1.
           destruct (IH (acc ++ [t]) (emit [EGetText i] (fun n => n) w))
             as (r' & evs & -> & Hev & Hr').
           exists r', (EGetText i :: evs). rewrite emit_emit. now simpl.
        -- exists (Raise e), [EGetText i]. now simpl.
      * exists (Raise (IndexError i)), [EGetText i]. now simpl.
Qed.

Lemma range_nat (a b : Z) :
  0 <= a ->
  range a b = map Z.of_nat (seq (Z.to_nat a) (Z.to_nat (b - a))).
Proof.
  intros Ha. unfold range.
  replace (Z.to_nat a) with (Z.to_nat a + 0)%nat at 1 by lia.
  generalize 0%nat as s. generalize (Z.to_nat (b - a)) as m.
  induction m as [|m IH]; intros s; simpl; [reflexivity|].
  f_equal; [lia|]. rewrite IH. f_equal. f_equal. lia.
Qed.

Lemma pages_in_range (doc : Document) ts :
  forall n m,
    firstn m (skipn n doc) = map Returns ts ->
    Forall2 (fun k t => nth_error doc k = Some (Returns t))
      (seq n (length ts)) ts.
Proof.
  induction ts as [|t ts IH]; intros n m H; simpl; [constructor|].
  destruct m as [|m]; [discriminate|].
  destruct (skipn n doc) as [|o rest] eqn:E; [discriminate|].
  simpl in H. inversion H; subst. constructor.
  - rewrite <- hd_error_skipn, E. reflexivity.
  - apply (IH (S n) m).
    change (S n) with (1 + n)%nat. rewrite <- skipn_skipn, E. assumption.
Qed.

Lemma valid_range_accepted (start_page end_page total_pages : Z) :
  1 <= start_page -> start_page <= end_page -> end_page <= total_pages ->
  resolve_sp (Some start_page) = start_page - 1
  /\ resolve_ep (Some end_page) total_pages = end_page
  /\ range_invalid (start_page - 1) end_page total_pages = false.
Proof.
  intros H1 H2 H3. unfold resolve_sp, resolve_ep, range_invalid; simpl.
  replace (start_page =? 0) with false by (symmetry; apply Z.eqb_neq; lia).
  replace (end_page =? 0) with false by (symmetry; apply Z.eqb_neq; lia).
  simpl. repeat split.
  repeat (apply orb_false_iff; split);
    first [apply Z.ltb_ge | apply Z.geb_leb | apply Z.gtb_ltb | idtac]; try lia.
Qed.

Lemma range_invalid_spec (sp ep total_pages : Z) :
  range_invalid sp ep total_pages = false
  <-> 0 <= sp < total_pages /\ 1 <= ep <= total_pages /\ sp < ep.
Proof.
  unfold range_invalid. rewrite !orb_false_iff.
  rewrite !Z.ltb_ge, Z.geb_leb, Z.gtb_ltb, Z.geb_leb, Z.leb_gt, Z.ltb_ge,
    Z.leb_gt.
  lia.
Qed.

Lemma extract_pages_invalid doc start_page end_page w :
  range_invalid (resolve_sp start_page)
    (resolve_ep end_page (page_count doc)) (page_count doc) = true ->
  extract_pages doc start_page end_page w
  = (Raise (ValueError (MsgPageRange (page_count doc))),
     emit [EClose] Nat.pred w).
Proof. intros H. unfold extract_pages. rewrite H. reflexivity. Qed.

(** With valid bounds the operation either returns after reading pages and
    closing the document, or stops at a page failure, the document still
    open. *)
Lemma extract_pages_valid doc start_page end_page w :
  range_invalid (resolve_sp start_page)
    (resolve_ep end_page (page_count doc)) (page_count doc) = false ->
  exists evs,
    forallb is_get_text evs = true
    /\ ((exists t, extract_pages doc start_page end_page w
                   = (Ok t, emit (evs ++ [EClose]) Nat.pred w))
        \/ (exists e, page_failure e = true
                      /\ extract_pages doc start_page end_page w
                         = (Raise e, emit evs (fun n => n) w))).
Proof.
  intros H. unfold extract_pages. rewrite H.
  destruct (loop_frame doc
              (range (resolve_sp start_page)
                 (resolve_ep end_page (page_count doc))) [] w)
    as (r & evs & Hrun & Hev & Hr).
  exists evs; split; [exact Hev|].
  destruct r as [texts|e].
  - left. eexists. rewrite (bind_ok _ _ _ _ _ Hrun).
    unfold bind. rewrite doc_close_run, emit_emit. reflexivity.
  - right. exists e; split; [exact Hr|].
    now rewrite (bind_raise _ _ _ _ _ Hrun).
Qed.

Lemma extract_run env pdf_path doc start_page end_page w :
  pymupdf_open env pdf_path = Returns doc ->
  extract_text_from_pdf env pdf_path start_page end_page w
  = extract_pages doc start_page end_page (emit [EOpen pdf_path] S w).
Proof.
  intros H. unfold extract_text_from_pdf.
  now rewrite (bind_ok _ _ _ _ _ (doc_open_run _ _ _ w H)).
Qed.

Lemma filter_none {A} (P Q : A -> bool) (l : list A) :
  (forall x, P x = true -> Q x = false) ->
  forallb P l = true -> filter Q l = [].
Proof.
  intros HPQ. induction l as [|x l IH]; simpl; [reflexivity|].
  rewrite andb_true_iff. intros [Hx Hl]. now rewrite (HPQ x Hx), IH.
Qed.

(** ** Claims on extraction *)

(** The guard of line 29 on the bounds the code resolves.  An absent
    start resolves to [sp = 0] and an absent end to [ep = T]; extraction
    raises the page-range error, carrying the total page count [T],
    unless the bounds of lines 26-27 satisfy [0 <= sp < T],
    [1 <= ep <= T] and [sp < ep]; and when they do, it does not raise the
    page-range error. *)
Lemma page_range_resolution env pdf_path doc start_page end_page w :
  pymupdf_open env pdf_path = Returns doc ->
  let T := page_count doc in
  let sp := resolve_sp start_page in
  let ep := resolve_ep end_page T in
  resolve_sp None = 0
  /\ resolve_ep None T = T
  /\ (~ (0 <= sp < T /\ 1 <= ep <= T /\ sp < ep) ->
      fst (extract_text_from_pdf env pdf_path start_page end_page w)
      = Raise (ValueError (MsgPageRange T)))
  /\ (0 <= sp < T /\ 1 <= ep <= T /\ sp < ep ->
      forall n,
        fst (extract_text_from_pdf env pdf_path start_page end_page w)
        <> Raise (ValueError (MsgPageRange n))).
Proof.
  intros Hopen T sp ep. split; [reflexivity|]. split; [reflexivity|].
  rewrite (extract_run _ _ _ _ _ _ Hopen).
  destruct (range_invalid sp ep T) eqn:E.
  - split.
    + intros _. unfold sp, ep, T in E.
      now rewrite (extract_pages_invalid _ _ _ _ E).
    + intros Hb. apply range_invalid_spec in Hb. congruence.
  - split.
    + intros Hb. apply range_invalid_spec in E. contradiction.
    + intros _ n. unfold sp, ep, T in E.
      destruct (extract_pages_valid doc start_page end_page
                  (emit [EOpen pdf_path] S w) E)
        as (evs & _ & [(t & ->) | (e & He & ->)]); simpl.
      * discriminate.
      * intros Heq; inversion Heq; subst; discriminate.
Qed.

Lemma page_range_resolution_witness :
  fst (extract_text_from_pdf
         (sample_env (Returns three_pages) (Returns []))
         (lit "book.pdf") (Some 3) (Some 2) (initial_world []))
  = Raise (ValueError (MsgPageRange 3))
  /\ fst (extract_text_from_pdf
            (sample_env (Returns three_pages) (Returns []))
            (lit "book.pdf") None None (initial_world []))
     <> Raise (ValueError (MsgPageRange 3)).
Proof.
  pose proof (page_range_resolution
                (sample_env (Returns three_pages) (Returns []))
                (lit "book.pdf") three_pages) as H.
  split.
  - apply (H (Some 3) (Some 2) (initial_world []) eq_refl).
    cbn. lia.
  - apply (H None None (initial_world []) eq_refl).
    cbn. lia.
Defined.

(** Away from the page number 0 the code resolves a range as the
    specification words it, and rejects a request exactly when the
    specification's bounds fail [0 <= sp < T], [1 <= ep <= T] or
    [sp < ep]. *)
Lemma resolution_agrees_with_spec env pdf_path doc start_page end_page w :
  pymupdf_open env pdf_path = Returns doc ->
  start_page <> Some 0 -> end_page <> Some 0 ->
  let T := page_count doc in
  let sp := spec_sp start_page in
  let ep := spec_ep end_page T in
  resolve_sp start_page = sp
  /\ resolve_ep end_page T = ep
  /\ (fst (extract_text_from_pdf env pdf_path start_page end_page w)
      = Raise (ValueError (MsgPageRange T))
      <-> ~ (0 <= sp < T /\ 1 <= ep <= T /\ sp < ep)).
Proof.
  intros Hopen Hs He T sp ep.
  assert (Hsp : resolve_sp start_page = sp).
  { subst sp. destruct start_page as [n|]; [|reflexivity].
    unfold resolve_sp, spec_sp; simpl.
    destruct (Z.eqb_spec n 0); [subst; congruence|reflexivity]. }
  assert (Hep : resolve_ep end_page T = ep).
  { subst ep. destruct end_page as [n|]; [|reflexivity].
    unfold resolve_ep, spec_ep; simpl.
    destruct (Z.eqb_spec n 0); [subst; congruence|reflexivity]. }
  split; [exact Hsp|]. split; [exact Hep|].
  destruct (page_range_resolution env pdf_path doc start_page end_page w
              Hopen) as (_ & _ & Hbad & Hgood).
  fold T in Hbad, Hgood. rewrite Hsp, Hep in Hbad, Hgood.
  split.
  - intros Hraise Hb. exact (Hgood Hb T Hraise).
  - exact Hbad.
Qed.

(** C3. The code does not resolve a page range as stated.  A start page
    of [0] should resolve to [sp = -1], which fails [0 <= sp] and must be
    rejected; the code resolves it to [sp = 0], as if the start were
    absent, and extracts page 1 of a one-page document.  Likewise an end
    page of [0] should resolve to [ep = 0], which fails [1 <= ep]; the
    code resolves it to [ep = T] and extracts all three pages of a
    three-page document. *)
Theorem zero_bound_resolved_as_absent :
  (spec_sp (Some 0) = -1
   /\ resolve_sp (Some 0) = 0
   /\ extract_text_from_pdf (sample_env (Returns one_page) (Returns []))
        (lit "book.pdf") (Some 0) None (initial_world [])
      = (Ok (lit "A"),
         mkWorld [EOpen (lit "book.pdf"); EGetText 0; EClose] [] 0))
  /\ (spec_ep (Some 0) 3 = 0
      /\ resolve_ep (Some 0) 3 = 3
      /\ extract_text_from_pdf
           (sample_env (Returns three_pages) (Returns []))
           (lit "book.pdf") None (Some 0) (initial_world [])
         = (Ok (lit "A" ++ [newline; newline] ++ lit "B"
                  ++ [newline; newline] ++ lit "C"),
            mkWorld [EOpen (lit "book.pdf"); EGetText 0; EGetText 1;
                     EGetText 2; EClose] [] 0)).
Proof. repeat split. Qed.

(** C4. For [1 <= start <= end <= T], extraction over [start, end] reads
    pages [start] to [end] in ascending order and nothing else, and returns
    their texts joined pairwise by a blank line. *)
Theorem extract_valid_range env pdf_path doc start_page end_page texts w :
  pymupdf_open env pdf_path = Returns doc ->
  1 <= start_page -> start_page <= end_page ->
  end_page <= page_count doc ->
  firstn (Z.to_nat (end_page - start_page + 1))
    (skipn (Z.to_nat (start_page - 1)) doc) = map Returns texts ->
  extract_text_from_pdf env pdf_path (Some start_page) (Some end_page) w
  = (Ok (join [newline; newline] texts),
     mkWorld
       (trace w ++ EOpen pdf_path
          :: map EGetText (range (start_page - 1) end_page) ++ [EClose])
       (dirs w) (open_docs w)).
Proof.
  intros Hopen H1 H2 H3 Hpages.
  rewrite (extract_run _ _ _ _ _ _ Hopen). unfold extract_pages.
  destruct (valid_range_accepted start_page end_page (page_count doc)
              H1 H2 H3) as (-> & -> & ->).
  assert (Hlen : length texts = Z.to_nat (end_page - (start_page - 1))).
  { apply (f_equal (@length _)) in Hpages.
    rewrite length_firstn, length_skipn, length_map in Hpages.
    unfold page_count in H3. lia. }
  pose proof (pages_in_range doc texts _ _ Hpages) as Hall.
  rewrite Hlen in Hall.
  rewrite range_nat by lia.
  rewrite (bind_ok _ _ _ _ _ (loop_reads_pages _ _ _ Hall [] _)).
  unfold bind. rewrite doc_close_run. unfold ret, emit; simpl.
  rewrite <- !app_assoc. reflexivity.
Qed.

Lemma extract_valid_range_witness :
  extract_text_from_pdf (sample_env (Returns three_pages) (Returns []))
    (lit "book.pdf") (Some 2) (Some 3) (initial_world [])
  = (Ok (lit "B" ++ [newline; newline] ++ lit "C"),
     mkWorld [EOpen (lit "book.pdf"); EGetText 1; EGetText 2; EClose] [] 0).
Proof.
  apply (extract_valid_range
           (sample_env (Returns three_pages) (Returns []))
           (lit "book.pdf") three_pages 2 3 [lit "B"; lit "C"]
           (initial_world []));
    [reflexivity | lia | lia | vm_compute; discriminate | reflexivity].
Defined.

(** An invalid pair of non-zero page numbers is rejected before any page
    is read, and the document is closed. *)
Lemma invalid_range_rejected env pdf_path doc start_page end_page w :
  pymupdf_open env pdf_path = Returns doc ->
  start_page <> 0 -> end_page <> 0 ->
  start_page <= 0 \/ end_page > page_count doc \/ start_page > end_page ->
  extract_text_from_pdf env pdf_path (Some start_page) (Some end_page) w
  = (Raise (ValueError (MsgPageRange (page_count doc))),
     mkWorld (trace w ++ [EOpen pdf_path; EClose]) (dirs w) (open_docs w)).
Proof.
  intros Hopen Hs He Hbad. rewrite (extract_run _ _ _ _ _ _ Hopen).
  rewrite extract_pages_invalid.
  - unfold emit; simpl. now rewrite <- app_assoc.
  - destruct (range_invalid _ _ _) eqn:E; [reflexivity|].
    apply range_invalid_spec in E. revert E.
    unfold resolve_sp, resolve_ep; simpl.
    apply Z.eqb_neq in Hs, He. rewrite Hs, He; simpl. lia.
Qed.

(** C2. A start page of [0] is taken as absent instead of being rejected:
    on a one-page document the pair [(0, 1)] extracts page 1, and on a
    three-page document the pair [(2, 0)], whose start exceeds its end,
    extracts pages 2 and 3. *)
Theorem zero_page_number_not_rejected :
  extract_text_from_pdf (sample_env (Returns one_page) (Returns []))
    (lit "book.pdf") (Some 0) (Some 1) (initial_world [])
  = (Ok (lit "A"),
     mkWorld [EOpen (lit "book.pdf"); EGetText 0; EClose] [] 0)
  /\ extract_text_from_pdf (sample_env (Returns three_pages) (Returns []))
       (lit "book.pdf") (Some 2) (Some 0) (initial_world [])
     = (Ok (lit "B" ++ [newline; newline] ++ lit "C"),
        mkWorld [EOpen (lit "book.pdf"); EGetText 1; EGetText 2; EClose]
          [] 0).
Proof. split; reflexivity. Qed.

(** Where the document handle is after the operation: closed again on
    return and on a page-range error, still open on any other failure. *)
Lemma extract_handle_accounting env pdf_path doc start_page end_page w r w' :
  pymupdf_open env pdf_path = Returns doc ->
  extract_text_from_pdf env pdf_path start_page end_page w = (r, w') ->
  match r with
  | Ok _ | Raise (ValueError (MsgPageRange _)) => open_docs w' = open_docs w
  | Raise _ => open_docs w' = S (open_docs w)
  end.
Proof.
  intros Hopen. rewrite (extract_run _ _ _ _ _ _ Hopen).
  destruct (range_invalid (resolve_sp start_page)
              (resolve_ep end_page (page_count doc)) (page_count doc)) eqn:E.
  - rewrite (extract_pages_invalid _ _ _ _ E). intros H; inversion H.
    reflexivity.
  - destruct (extract_pages_valid doc start_page end_page
                (emit [EOpen pdf_path] S w) E)
      as (evs & _ & [(t & ->) | (e & He & ->)]); intros H; inversion H.
    + reflexivity.
    + subst. destruct e as [[]| | | |]; try discriminate; reflexivity.
Qed.

(** C5. A failure while reading a page leaves the document open: the
    exception propagates and [doc.close()] is never reached. *)
Theorem page_failure_leaves_document_open :
  extract_text_from_pdf (sample_env (Returns broken_page) (Returns []))
    (lit "book.pdf") None None (initial_world [])
  = (Raise (LibraryError (lit "cannot load page")),
     mkWorld [EOpen (lit "book.pdf"); EGetText 0] [] 1).
Proof. reflexivity. Qed.

(** ** Claims on the checks before synthesis *)

Lemma synthesize_blank env full_text mp3_path voice speed max_length w :
  strip full_text = [] ->
  synthesize env full_text mp3_path voice speed max_length w
  = (Raise (ValueError MsgNoText), w).
Proof. intros H. unfold synthesize. rewrite H. reflexivity. Qed.

Lemma synthesize_too_large env full_text mp3_path voice speed max_length w :
  strip full_text <> [] -> len full_text > 50000 ->
  synthesize env full_text mp3_path voice speed max_length w
  = (Raise (ValueError (MsgTooLarge 50000 (len full_text))), w).
Proof.
  intros Hs Hl. unfold synthesize.
  destruct (strip full_text); [congruence|]. simpl.
  replace (len full_text >? 50000) with true
    by (symmetry; rewrite Z.gtb_ltb; apply Z.ltb_lt; lia).
  reflexivity.
Qed.

(** Past both checks, what is left can fail only on the voice look-up or
    inside the engine. *)
Lemma synthesize_accepted env full_text mp3_path voice speed max_length w :
  strip full_text <> [] -> len full_text <= 50000 ->
  match fst (synthesize env full_text mp3_path voice speed max_length w) with
  | Ok _ | Raise (KeyError _) | Raise (LibraryError _)
  | Raise (ValueError (MsgLibrary _)) => True
  | Raise _ => False
  end.
Proof.
  intros Hs Hl. unfold synthesize.
  destruct (strip full_text); [congruence|]. simpl.
  replace (len full_text >? 50000) with false
    by (symmetry; rewrite Z.gtb_ltb; apply Z.ltb_ge; lia).
  unfold bind, log, call, ret, raise.
  destruct (Voice_getitem env _); simpl; [|exact I].
  destruct (generate_speech_long_text env _) as [a|[] t]; simpl;
    try exact I.
  destruct (save_to_file env a _) as [[]|[] t]; simpl; exact I.
Qed.

(** Text past both checks, with a known voice, reaches the engine with
    word-preserving splitting and automatic merging switched on. *)
Lemma accepted_text_reaches_engine env full_text mp3_path voice speed
    max_length v w :
  strip full_text <> [] -> len full_text <= 50000 ->
  Voice_getitem env (upper env voice) = Some v ->
  exists evs,
    trace (snd (synthesize env full_text mp3_path voice speed max_length w))
    = trace w
        ++ ESpeech (mkRequest full_text v MP3 speed max_length true true)
        :: evs.
Proof.
  intros Hs Hl Hv. unfold synthesize.
  destruct (strip full_text); [congruence|]. simpl.
  replace (len full_text >? 50000) with false
    by (symmetry; rewrite Z.gtb_ltb; apply Z.ltb_ge; lia).
  rewrite Hv. unfold bind, log, call, ret, raise.
  destruct (generate_speech_long_text env _) as [a|[] t]; simpl;
    try (exists []; reflexivity).
  destruct (save_to_file env a _) as [[]|[] t]; simpl;
    eexists; rewrite <- app_assoc; reflexivity.
Qed.

Lemma pdf_to_mp3_run env pdf_path mp3_path voice speed max_length
    start_page end_page w full_text w1 :
  extract_text_from_pdf env pdf_path start_page end_page w
  = (Ok full_text, w1) ->
  pdf_to_mp3_with_ttsfm env pdf_path mp3_path voice speed max_length
    start_page end_page w
  = synthesize env full_text mp3_path voice speed max_length w1.
Proof.
  intros H. unfold pdf_to_mp3_with_ttsfm.
  exact (bind_ok _
           (fun t => synthesize env t mp3_path voice speed max_length)
           _ _ _ H).
Qed.

(** Extraction never calls the synthesis engine. *)
Lemma extract_no_speech env pdf_path start_page end_page w r w1 :
  extract_text_from_pdf env pdf_path start_page end_page w = (r, w1) ->
  count is_speech (trace w1) = count is_speech (trace w).
Proof.
  destruct (uniform_extract env pdf_path start_page end_page)
    as (r0 & evs & f & Hev & Hrun).
  rewrite Hrun. intros H; inversion H; subst. unfold count, emit; simpl.
  rewrite filter_app, (filter_none extraction_event is_speech evs),
    app_nil_r; auto.
  intros e; destruct e; simpl; congruence.
Qed.

(** C7. Extracted text that is empty or holds only whitespace fails with
    the empty-text error, whatever page range produced it, and the
    synthesis engine is not invoked; text that is non-empty after trimming
    never fails with that error. *)
Theorem blank_text_rejected env pdf_path mp3_path voice speed max_length
    start_page end_page w full_text w1 :
  extract_text_from_pdf env pdf_path start_page end_page w
  = (Ok full_text, w1) ->
  (forallb isspace full_text = true ->
   pdf_to_mp3_with_ttsfm env pdf_path mp3_path voice speed max_length
     start_page end_page w
   = (Raise (ValueError MsgNoText), w1)
   /\ count is_speech (trace w1) = count is_speech (trace w))
  /\ (strip full_text <> [] ->
      fst (pdf_to_mp3_with_ttsfm env pdf_path mp3_path voice speed max_length
             start_page end_page w)
      <> Raise (ValueError MsgNoText)).
Proof.
  intros Hx. rewrite (pdf_to_mp3_run _ _ _ _ _ _ _ _ _ _ _ Hx). split.
  - intros Hblank. split.
    + apply synthesize_blank, strip_empty_iff, Hblank.
    + exact (extract_no_speech _ _ _ _ _ _ _ Hx).
  - intros Hs.
    destruct (Z_le_gt_dec (len full_text) 50000) as [Hl|Hl].
    + pose proof (synthesize_accepted env full_text mp3_path voice speed
                    max_length w1 Hs Hl) as H.
      intros Heq. rewrite Heq in H. exact H.
    + rewrite synthesize_too_large by assumption. simpl. discriminate.
Qed.

Lemma blank_text_rejected_witness :
  pdf_to_mp3_with_ttsfm
    (sample_env (Returns [Returns (lit "  "); Returns [9%N]]) (Returns []))
    (lit "scan.pdf") (lit "scan.mp3") (lit "alloy") float_one 1000
    None None (initial_world [])
  = (Raise (ValueError MsgNoText),
     mkWorld [EOpen (lit "scan.pdf"); EGetText 0; EGetText 1; EClose] [] 0)
  /\ fst (pdf_to_mp3_with_ttsfm
            (sample_env (Returns one_page) (Returns []))
            (lit "book.pdf") (lit "book.mp3") (lit "alloy") float_one 1000
            None None (initial_world []))
     <> Raise (ValueError MsgNoText).
Proof.
  split.
  - apply (blank_text_rejected
             (sample_env (Returns [Returns (lit "  "); Returns [9%N]])
                (Returns []))
             (lit "scan.pdf") (lit "scan.mp3") (lit "alloy") float_one 1000
             None None (initial_world [])
             (lit "  " ++ [newline; newline] ++ [9%N]) _ eq_refl).
    reflexivity.
  - apply (blank_text_rejected
             (sample_env (Returns one_page) (Returns []))
             (lit "book.pdf") (lit "book.mp3") (lit "alloy") float_one 1000
             None None (initial_world []) (lit "A") _ eq_refl).
    vm_compute. discriminate.
Defined.

(** C6, as amended.  For extracted text that is not blank, synthesis is
    rejected with the text-too-large error if and only if its length
    exceeds 50000, and the error then carries the limit 50000 and the
    actual length. *)
Theorem text_too_large_iff env pdf_path mp3_path voice speed max_length
    start_page end_page w full_text w1 :
  extract_text_from_pdf env pdf_path start_page end_page w
  = (Ok full_text, w1) ->
  strip full_text <> [] ->
  ((exists limit n,
       fst (pdf_to_mp3_with_ttsfm env pdf_path mp3_path voice speed
              max_length start_page end_page w)
       = Raise (ValueError (MsgTooLarge limit n)))
   <-> len full_text > 50000)
  /\ (len full_text > 50000 ->
      pdf_to_mp3_with_ttsfm env pdf_path mp3_path voice speed max_length
        start_page end_page w
      = (Raise (ValueError (MsgTooLarge 50000 (len full_text))), w1)).
Proof.
  intros Hx Hs. rewrite (pdf_to_mp3_run _ _ _ _ _ _ _ _ _ _ _ Hx).
  split; [split|].
  - intros (limit & n & Heq).
    destruct (Z_le_gt_dec (len full_text) 50000) as [Hl|Hl]; [|exact Hl].
    pose proof (synthesize_accepted env full_text mp3_path voice speed
                  max_length w1 Hs Hl) as H.
    rewrite Heq in H. contradiction.
  - intros Hl. exists 50000, (len full_text).
    now rewrite synthesize_too_large.
  - intros Hl. now apply synthesize_too_large.
Qed.

Lemma single_page_extract t spoken p w :
  extract_text_from_pdf (sample_env (Returns [Returns t]) spoken) p
    None None w
  = (Ok t, mkWorld (trace w ++ [EOpen p; EGetText 0; EClose]) (dirs w)
             (open_docs w)).
Proof.
  unfold extract_text_from_pdf, doc_open, extract_pages, bind, log, call,
    ret, emit; simpl.
  now rewrite <- !app_assoc.
Qed.

Lemma len_repeat (c : char) (n : N) : len (repeat c (N.to_nat n)) = Z.of_N n.
Proof. unfold len. now rewrite repeat_length, N_nat_Z. Qed.

Lemma forallb_repeat {A} (P : A -> bool) (x : A) (n : nat) :
  P x = true -> forallb P (repeat x n) = true.
Proof. intros H; induction n; simpl; [reflexivity | now rewrite H]. Qed.

Lemma long_text_not_blank : strip long_text <> [].
Proof.
  intros H. apply strip_empty_iff in H. unfold long_text in H.
  destruct (N.to_nat 50001) eqn:E; [lia|]. simpl in H. discriminate.
Qed.

Lemma text_too_large_iff_witness :
  pdf_to_mp3_with_ttsfm (sample_env (Returns long_page) (Returns []))
    (lit "book.pdf") (lit "book.mp3") (lit "alloy") float_one 1000
    None None (initial_world [])
  = (Raise (ValueError (MsgTooLarge 50000 (len long_text))),
     mkWorld [EOpen (lit "book.pdf"); EGetText 0; EClose] [] 0)
  /\ len long_text = 50001.
Proof.
  split; [|apply len_repeat].
  refine (proj2 (text_too_large_iff
             (sample_env (Returns long_page) (Returns []))
             (lit "book.pdf") (lit "book.mp3") (lit "alloy") float_one 1000
             None None (initial_world []) long_text _
             (single_page_extract _ _ _ _) long_text_not_blank) _).
  unfold long_text. rewrite len_repeat. reflexivity.
Defined.

(** C6, as stated, fails on blank text: 50001 spaces are longer than the
    limit and yet are rejected with the empty-text error, not with the
    text-too-large error. *)
Lemma blank_text_over_limit :
  len blank_text = 50001
  /\ fst (extract_text_from_pdf
            (sample_env (Returns blank_page) (Returns []))
            (lit "scan.pdf") None None (initial_world []))
     = Ok blank_text
  /\ fst (pdf_to_mp3_with_ttsfm
            (sample_env (Returns blank_page) (Returns []))
            (lit "scan.pdf") (lit "scan.mp3") (lit "alloy") float_one 1000
            None None (initial_world []))
     = Raise (ValueError MsgNoText).
Proof.
  split; [apply len_repeat|]. split.
  - unfold blank_page. now rewrite single_page_extract.
  - unfold blank_page.
    rewrite (pdf_to_mp3_run _ _ _ _ _ _ _ _ _ _ _
               (single_page_extract _ _ _ _)).
    rewrite synthesize_blank; [reflexivity|].
    apply strip_empty_iff, forallb_repeat. reflexivity.
Qed.

(** ** The service *)

Lemma rmtree_run d w :
  rmtree d w
  = (Ok tt, mkWorld (trace w ++ [ERmtree d])
              (filter (fun x => negb (path_eqb x d)) (dirs w)) (open_docs w)).
Proof. reflexivity. Qed.

Lemma convert_pdf_rejects env pdf voice speed max_length start_page end_page
    background_tasks w :
  content_type_allowed (content_type pdf) = false ->
  convert_pdf env pdf voice speed max_length start_page end_page
    background_tasks w
  = (Raise (HTTPException 400 DetailUnsupported), w).
Proof. intros H. unfold convert_pdf. rewrite H. reflexivity. Qed.

(** The handler, path by path, for an accepted content type. *)
Lemma convert_pdf_run env pdf voice speed max_length start_page end_page
    background_tasks ds :
  content_type_allowed (content_type pdf) = true ->
  let d := temp_dir_of env in
  let after evs w := mkWorld (trace w ++ evs)
                       (filter (fun x => negb (path_eqb x d)) (dirs w))
                       (open_docs w) in
  convert_pdf env pdf voice speed max_length start_page end_page
    background_tasks (initial_world ds)
  = match pdf_read env with
    | Raises _ _ =>
        (Raise (HTTPException 400 DetailReadFailed),
         mkWorld [EMkdtemp d; ERead; ERmtree d]
           (filter (fun x => negb (path_eqb x d)) (d :: ds)) 0)
    | Returns b =>
        match write_bytes env (pdf_path_of env pdf) b with
        | Raises _ _ =>
            (Raise (HTTPException 400 DetailReadFailed),
             mkWorld [EMkdtemp d; ERead; EWriteBytes (pdf_path_of env pdf);
                      ERmtree d]
               (filter (fun x => negb (path_eqb x d)) (d :: ds)) 0)
        | Returns _ =>
            match pdf_to_mp3_with_ttsfm env
                    (path_str (pdf_path_of env pdf))
                    (path_str (mp3_path_of env pdf))
                    voice speed max_length start_page end_page
                    (staged_world env pdf ds) with
            | (Ok _, w1) =>
                (Ok (mkFileResponse (path_str (mp3_path_of env pdf))
                       (lit "audio/mpeg")
                       (stem (pdf_path_of env pdf) ++ lit ".mp3")
                       (match background_tasks with
                        | Some b => b
                        | None => []
                        end ++ [TaskRmtree d])), w1)
            | (Raise e, w1) =>
                (Raise (HTTPException (status_of e) (detail_of e)),
                 after [ERmtree d] w1)
            end
        end
    end.
Proof.
  intros Hct d after. subst d after.
  unfold staged_world, pdf_path_of, mp3_path_of, temp_dir_of, convert_pdf.
  rewrite Hct.
  cbv beta iota zeta delta [bind try_except mkdtemp log ret raise rmtree
    negb initial_world].
  cbn [trace dirs open_docs app].
  destruct (staged_paths (Path (mkdtemp_name env)) (filename pdf))
    as [pp mp].
  cbn [fst snd].
  destruct (pdf_read env) as [b|v t]; cbn [call ret raise trace dirs
    open_docs app]; [|reflexivity].
  destruct (write_bytes env pp b) as [[]|v t]; cbn [call ret raise trace dirs
    open_docs app]; [|reflexivity].
  destruct (pdf_to_mp3_with_ttsfm _ _ _ _ _ _ _ _ _) as [[[]|e] w1].
  - reflexivity.
  - destruct e as [m| | | |]; reflexivity.
Qed.

Lemma run_tasks_run ts w :
  run_tasks ts w
  = (Ok tt, mkWorld (trace w ++ map task_event ts)
              (remove_dirs ts (dirs w)) (open_docs w)).
Proof.
  revert w. induction ts as [|[x] ts IH]; intros w; simpl.
  - unfold ret. destruct w; simpl. now rewrite app_nil_r.
  - unfold bind. rewrite rmtree_run, IH. simpl.
    now rewrite <- app_assoc.
Qed.

Lemma serve_unfold env pdf voice speed max_length start_page end_page
    background_tasks w :
  serve env pdf voice speed max_length start_page end_page background_tasks w
  = match convert_pdf env pdf voice speed max_length start_page end_page
            background_tasks w with
    | (Ok r, w1) =>
        match refusal_status (file_response_call env (response_path r)) with
        | None =>
            (Ok (AudioResponse r),
             mkWorld
               (trace w1 ++ EBodySent (response_path r)
                  :: map task_event (background r))
               (remove_dirs (background r) (dirs w1)) (open_docs w1))
        | Some status =>
            (Ok (PlainTextResponse status),
             mkWorld (trace w1 ++ [EErrorResponse status]) (dirs w1)
               (open_docs w1))
        end
    | (Raise (HTTPException status detail), w1) =>
        (Ok (ErrorResponse status detail),
         mkWorld (trace w1 ++ [EErrorResponse status]) (dirs w1)
           (open_docs w1))
    | (Raise _, w1) =>
        (Ok (PlainTextResponse 500),
         mkWorld (trace w1 ++ [EErrorResponse 500]) (dirs w1) (open_docs w1))
    end.
Proof.
  unfold serve, try_except. unfold bind at 1.
  destruct (convert_pdf _ _ _ _ _ _ _ _ w) as [[r|e] w1].
  - unfold send_file_response.
    destruct (file_response_call env (response_path r)); try reflexivity.
    unfold bind. rewrite log_run, run_tasks_run. unfold ret, emit; simpl.
    now rewrite <- app_assoc.
  - destruct e; reflexivity.
Qed.

(** The ways a request with an accepted content type can go. *)
Lemma serve_cases env pdf voice speed max_length start_page end_page
    background_tasks ds :
  content_type_allowed (content_type pdf) = true ->
  let d := temp_dir_of env in
  let p := pdf_path_of env pdf in
  let tasks := match background_tasks with Some b => b | None => [] end in
  let pipeline :=
    pdf_to_mp3_with_ttsfm env (path_str p) (path_str (mp3_path_of env pdf))
      voice speed max_length start_page end_page in
  let run := serve env pdf voice speed max_length start_page end_page
               background_tasks (initial_world ds) in
  (exists v t,
      pdf_read env = Raises v t
      /\ run = (Ok (ErrorResponse 400 DetailReadFailed),
                mkWorld [EMkdtemp d; ERead; ERmtree d; EErrorResponse 400]
                  (remove_dir d (d :: ds)) 0))
  \/ (exists b v t,
         pdf_read env = Returns b /\ write_bytes env p b = Raises v t
         /\ run = (Ok (ErrorResponse 400 DetailReadFailed),
                   mkWorld [EMkdtemp d; ERead; EWriteBytes p; ERmtree d;
                            EErrorResponse 400]
                     (remove_dir d (d :: ds)) 0))
  \/ (exists b evs f,
         pdf_read env = Returns b /\ write_bytes env p b = Returns tt
         /\ forallb pipeline_event evs = true
         /\ ((exists e,
                 (forall w, fst (pipeline w) = Raise e)
                 /\ run = (Ok (ErrorResponse (status_of e) (detail_of e)),
                           mkWorld
                             ([EMkdtemp d; ERead; EWriteBytes p] ++ evs
                                ++ [ERmtree d; EErrorResponse (status_of e)])
                             (remove_dir d (d :: ds)) (f 0%nat)))
             \/ ((forall w, fst (pipeline w) = Ok tt)
                 /\ run
                    = match refusal_status
                              (file_response_call env
                                 (path_str (mp3_path_of env pdf))) with
                      | None =>
                          (Ok (AudioResponse
                                 (mkFileResponse
                                    (path_str (mp3_path_of env pdf))
                                    (lit "audio/mpeg")
                                    (stem p ++ lit ".mp3")
                                    (tasks ++ [TaskRmtree d]))),
                           mkWorld
                             ([EMkdtemp d; ERead; EWriteBytes p] ++ evs
                                ++ EBodySent (path_str (mp3_path_of env pdf))
                                :: map task_event tasks ++ [ERmtree d])
                             (remove_dir d (remove_dirs tasks (d :: ds)))
                             (f 0%nat))
                      | Some status =>
                          (Ok (PlainTextResponse status),
                           mkWorld
                             ([EMkdtemp d; ERead; EWriteBytes p] ++ evs
                                ++ [EErrorResponse status])
                             (d :: ds) (f 0%nat))
                      end))).
Proof.
  intros Hct d p tasks pipeline run. subst run.
  rewrite serve_unfold, (convert_pdf_run _ _ _ _ _ _ _ _ _ Hct).
  fold d p tasks.
  destruct (pdf_read env) as [b|v t] eqn:Er;
    [|left; exists v, t; split; reflexivity].
  destruct (write_bytes env p b) as [[]|v t] eqn:Ew;
    [|right; left; exists b, v, t; repeat split; solve [reflexivity|exact Ew]].
  right; right.
  destruct (uniform_pdf_to_mp3 env (path_str p)
              (path_str (mp3_path_of env pdf)) voice speed max_length
              start_page end_page) as (r & evs & f & Hev & Hrun).
  exists b, evs, f. repeat (split; [assumption || reflexivity|]).
  clear Er Ew.
  fold pipeline in Hrun |- *. rewrite Hrun.
  destruct r as [[]|e].
  - right. split; [intros w; now rewrite Hrun|].
    cbn [response_path background].
    destruct (refusal_status _).
    + unfold staged_world, emit; simpl. fold d p.
      rewrite <- ?app_assoc; reflexivity.
    + unfold staged_world, emit; simpl. fold d p.
      rewrite ?map_app, <- ?app_assoc; simpl.
      unfold remove_dirs. rewrite fold_left_app. reflexivity.
  - left. exists e. split; [intros w; now rewrite Hrun|].
    destruct e; unfold staged_world, emit; simpl; fold d p;
      rewrite <- ?app_assoc; reflexivity.
Qed.

Lemma pipeline_not_mkdtemp e : pipeline_event e = true -> is_mkdtemp e = false.
Proof. destruct e; simpl; congruence. Qed.

Lemma pipeline_not_rmtree d e :
  pipeline_event e = true -> is_rmtree d e = false.
Proof. destruct e; simpl; congruence. Qed.

Lemma tasks_not_mkdtemp ts : filter is_mkdtemp (map task_event ts) = [].
Proof. induction ts as [|[x] ts IH]; simpl; auto. Qed.

Lemma not_in_remove_dir d ds : ~ In d (remove_dir d ds).
Proof.
  unfold remove_dir. rewrite filter_In, path_eqb_refl. intros [_ H].
  discriminate.
Qed.

Lemma content_type_allowed_spec (ct : option str) :
  content_type_allowed ct = true
  <-> ct = None \/ ct = Some (lit "application/pdf")
      \/ ct = Some (lit "application/octet-stream").
Proof.
  destruct ct as [s|]; simpl.
  - rewrite orb_true_iff, !str_eqb_eq. split.
    + intros [->| ->]; auto.
    + intros [H|[H|H]]; inversion H; auto.
  - split; auto.
Qed.

(** ** Claims on the service *)

(** When the response is sent, the temporary directory is deleted
    exactly once and is gone when the request is over: on every failure
    path of the handler the deletion comes immediately before the error
    response, and on the success path it is the deferred task of the
    response and runs right after the body has been transmitted.
    [background_tasks] is the object injected for the request, which holds
    no task of its own. *)
Lemma temp_dir_deleted_once_when_sent env pdf voice speed max_length
    start_page end_page background_tasks ds :
  content_type_allowed (content_type pdf) = true ->
  background_tasks = None \/ background_tasks = Some [] ->
  file_response_call env (path_str (mp3_path_of env pdf)) = BodySent ->
  let d := temp_dir_of env in
  let run := serve env pdf voice speed max_length start_page end_page
               background_tasks (initial_world ds) in
  count is_mkdtemp (trace (snd run)) = 1%nat
  /\ count (is_rmtree d) (trace (snd run)) = 1%nat
  /\ ~ In d (dirs (snd run))
  /\ match fst run with
     | Ok (ErrorResponse status _) =>
         exists pre,
           trace (snd run) = pre ++ [ERmtree d; EErrorResponse status]
     | Ok (AudioResponse r) =>
         background r = [TaskRmtree d]
         /\ exists pre,
              trace (snd run)
              = pre ++ [EBodySent (response_path r); ERmtree d]
     | _ => False
     end.
Proof.
  intros Hct Hbt Hsent d run.
  assert (Htasks : match background_tasks with Some b => b | None => [] end
                   = []) by (destruct Hbt; subst; reflexivity).
  destruct (serve_cases env pdf voice speed max_length start_page end_page
              background_tasks ds Hct)
    as [(v & t & _ & Hrun)
       |[(b & v & t & _ & _ & Hrun)
        |(b & evs & f & _ & _ & Hev & [(e & _ & Hrun)|(_ & Hrun)])]];
    try (rewrite Hsent in Hrun; cbn [refusal_status] in Hrun);
    fold d in Hrun; fold run in Hrun; rewrite Hrun; clear Hrun;
    try rewrite Htasks; cbn [fst snd trace dirs map app];
    unfold count; cbn [filter is_mkdtemp is_rmtree];
    rewrite ?filter_app,
      ?(filter_none pipeline_event is_mkdtemp evs pipeline_not_mkdtemp Hev),
      ?(filter_none pipeline_event (is_rmtree d) evs
          (pipeline_not_rmtree d) Hev);
    cbn [filter is_mkdtemp is_rmtree app length]; rewrite ?path_eqb_refl;
    cbn [length].
  - repeat split; try reflexivity; [apply not_in_remove_dir|].
    exists [EMkdtemp d; ERead]. reflexivity.
  - repeat split; try reflexivity; [apply not_in_remove_dir|].
    exists [EMkdtemp d; ERead; EWriteBytes (pdf_path_of env pdf)].
    reflexivity.
  - repeat split; try reflexivity; [apply not_in_remove_dir|].
    exists ([EMkdtemp d; ERead; EWriteBytes (pdf_path_of env pdf)] ++ evs).
    now rewrite <- app_assoc.
  - repeat split; try reflexivity; [apply not_in_remove_dir|].
    exists ([EMkdtemp d; ERead; EWriteBytes (pdf_path_of env pdf)] ++ evs).
    now rewrite <- app_assoc.
Qed.

(** Whenever the handler has returned its response and the response is
    not sent, nothing deletes the temporary directory: it is still on
    disk when the request is over. *)
Lemma temp_dir_left_when_not_sent env pdf voice speed max_length
    start_page end_page background_tasks ds b status :
  content_type_allowed (content_type pdf) = true ->
  pdf_read env = Returns b ->
  write_bytes env (pdf_path_of env pdf) b = Returns tt ->
  fst (pdf_to_mp3_with_ttsfm env (path_str (pdf_path_of env pdf))
         (path_str (mp3_path_of env pdf)) voice speed max_length
         start_page end_page (initial_world ds)) = Ok tt ->
  refusal_status (file_response_call env (path_str (mp3_path_of env pdf)))
  = Some status ->
  let d := temp_dir_of env in
  let run := serve env pdf voice speed max_length start_page end_page
               background_tasks (initial_world ds) in
  fst run = Ok (PlainTextResponse status)
  /\ count (is_rmtree d) (trace (snd run)) = 0%nat
  /\ In d (dirs (snd run)).
Proof.
  intros Hct Hr Hw Hok Hsend d run.
  destruct (serve_cases env pdf voice speed max_length start_page end_page
              background_tasks ds Hct)
    as [(v & t & Hr' & _)
       |[(b' & v & t & Hr' & Hw' & _)
        |(b' & evs & f & _ & _ & Hev & [(e & He & _)|(_ & Hrun)])]];
    try congruence.
  rewrite Hsend in Hrun. fold d in Hrun; fold run in Hrun. rewrite Hrun.
  cbn [fst snd trace dirs]. split; [reflexivity|]. split.
  - unfold count. cbn [app filter is_rmtree].
    rewrite filter_app,
      (filter_none pipeline_event (is_rmtree d) evs
         (pipeline_not_rmtree d) Hev).
    reflexivity.
  - left. reflexivity.
Qed.

(** C1. The temporary directory is not deleted on every path.  When the
    handler has returned its response but the response is not sent, the
    deferred deletion never runs: with a Range header that cannot be
    read the request is answered 400, and with no file at the response's
    path it is answered 500, and in both cases the trace holds the
    [mkdtemp] and no [rmtree], and the directory is still on disk. *)
Theorem temp_dir_left_when_response_not_sent :
  serve (sending_env RangeMalformed) pdf_upload (lit "alloy") float_one 1000
    None None None (initial_world [])
  = (Ok (PlainTextResponse 400),
     mkWorld
       [EMkdtemp (Path (lit "/tmp/pdf2tts_k3x9")); ERead;
        EWriteBytes (Path (lit "/tmp/pdf2tts_k3x9/book.pdf"));
        EOpen (lit "/tmp/pdf2tts_k3x9/book.pdf"); EGetText 0; EClose;
        ESpeech (mkRequest (lit "A") (lit "ALLOY") MP3 float_one 1000 true
                   true);
        ESaveToFile (lit "/tmp/pdf2tts_k3x9/book.mp3");
        EErrorResponse 400]
       [Path (lit "/tmp/pdf2tts_k3x9")] 0)
  /\ serve (sending_env FileMissing) pdf_upload (lit "alloy") float_one 1000
       None None None (initial_world [])
     = (Ok (PlainTextResponse 500),
        mkWorld
          [EMkdtemp (Path (lit "/tmp/pdf2tts_k3x9")); ERead;
           EWriteBytes (Path (lit "/tmp/pdf2tts_k3x9/book.pdf"));
           EOpen (lit "/tmp/pdf2tts_k3x9/book.pdf"); EGetText 0; EClose;
           ESpeech (mkRequest (lit "A") (lit "ALLOY") MP3 float_one 1000 true
                      true);
           ESaveToFile (lit "/tmp/pdf2tts_k3x9/book.mp3");
           EErrorResponse 500]
          [Path (lit "/tmp/pdf2tts_k3x9")] 0).
Proof. split; reflexivity. Qed.

(** C8. A content type that is neither [application/pdf] nor
    [application/octet-stream] nor absent is answered with HTTP 400 and no
    temporary directory is created; an accepted content type leads to
    exactly one [mkdtemp], the first thing the request does. *)
Theorem content_type_gate env pdf voice speed max_length start_page end_page
    background_tasks ds :
  let run := serve env pdf voice speed max_length start_page end_page
               background_tasks (initial_world ds) in
  (content_type pdf <> None ->
   content_type pdf <> Some (lit "application/pdf") ->
   content_type pdf <> Some (lit "application/octet-stream") ->
   run = (Ok (ErrorResponse 400 DetailUnsupported),
          mkWorld [EErrorResponse 400] ds 0))
  /\ (content_type pdf = None
      \/ content_type pdf = Some (lit "application/pdf")
      \/ content_type pdf = Some (lit "application/octet-stream") ->
      count is_mkdtemp (trace (snd run)) = 1%nat
      /\ exists rest, trace (snd run) = EMkdtemp (temp_dir_of env) :: rest).
Proof.
  intros run. split.
  - intros H1 H2 H3.
    assert (Hct : content_type_allowed (content_type pdf) = false).
    { destruct (content_type_allowed (content_type pdf)) eqn:E;
        [|reflexivity].
      apply content_type_allowed_spec in E. tauto. }
    subst run. rewrite serve_unfold, (convert_pdf_rejects _ _ _ _ _ _ _ _ _ Hct).
    reflexivity.
  - intros Hct. apply content_type_allowed_spec in Hct.
    destruct (serve_cases env pdf voice speed max_length start_page end_page
                background_tasks ds Hct)
      as [(v & t & _ & Hrun)
         |[(b & v & t & _ & _ & Hrun)
          |(b & evs & f & _ & _ & Hev & [(e & _ & Hrun)|(_ & Hrun)])]];
      try match type of Hrun with
          | context [refusal_status ?x] => destruct (refusal_status x)
          end;
      fold run in Hrun; rewrite Hrun; clear Hrun;
      cbn [fst snd trace app]; unfold count; cbn [filter is_mkdtemp];
      repeat (progress
                (rewrite ?filter_app, ?tasks_not_mkdtemp,
                   ?(filter_none pipeline_event is_mkdtemp evs
                       pipeline_not_mkdtemp Hev);
                 cbn [filter is_mkdtemp app length]));
      (split; [reflexivity | eexists; reflexivity]).
Qed.

Lemma content_type_gate_witness :
  serve (sample_env (Returns one_page) (Returns [])) text_upload
    (lit "alloy") float_one 1000 None None None (initial_world [])
  = (Ok (ErrorResponse 400 DetailUnsupported),
     mkWorld [EErrorResponse 400] [] 0)
  /\ count is_mkdtemp
       (trace (snd (serve (sample_env (Returns one_page) (Returns []))
                      pdf_upload (lit "alloy") float_one 1000 None None None
                      (initial_world []))))
     = 1%nat.
Proof.
  split.
  - apply (proj1 (content_type_gate
                    (sample_env (Returns one_page) (Returns []))
                    text_upload (lit "alloy") float_one 1000 None None None []));
      discriminate.
  - apply (proj2 (content_type_gate
                    (sample_env (Returns one_page) (Returns []))
                    pdf_upload (lit "alloy") float_one 1000 None None None [])).
    right; left; reflexivity.
Defined.

(** C9, as amended.  A request that fails after staging is answered by
    the class of the exception: a [ValueError], which is how an invalid
    page range, empty text and oversized text are signalled, gives HTTP 400
    with the error's text; any other exception gives HTTP 500.  In both
    cases the temporary directory is deleted immediately before the error
    response and is gone afterwards. *)
Theorem failure_answered_by_exception_class env pdf voice speed max_length
    start_page end_page background_tasks ds b e w0 :
  content_type_allowed (content_type pdf) = true ->
  pdf_read env = Returns b ->
  write_bytes env (pdf_path_of env pdf) b = Returns tt ->
  fst (pdf_to_mp3_with_ttsfm env (path_str (pdf_path_of env pdf))
         (path_str (mp3_path_of env pdf)) voice speed max_length
         start_page end_page w0) = Raise e ->
  let d := temp_dir_of env in
  let run := serve env pdf voice speed max_length start_page end_page
               background_tasks (initial_world ds) in
  let status := match e with ValueError _ => 400 | _ => 500 end in
  fst run = Ok (ErrorResponse status
                  match e with
                  | ValueError m => DetailStr m
                  | _ => DetailGenerateFailed
                  end)
  /\ (exists pre, trace (snd run) = pre ++ [ERmtree d; EErrorResponse status])
  /\ count (is_rmtree d) (trace (snd run)) = 1%nat
  /\ ~ In d (dirs (snd run)).
Proof.
  intros Hct Hr Hw He d run status.
  destruct (serve_cases env pdf voice speed max_length start_page end_page
              background_tasks ds Hct)
    as [(v & t & Hr' & _)
       |[(b' & v & t & Hr' & Hw' & _)
        |(b' & evs & f & _ & _ & Hev & [(e' & He' & Hrun)|(He' & _)])]];
    try congruence.
  - rewrite He' in He. inversion He; subst e'.
    fold d in Hrun; fold run in Hrun. rewrite Hrun; clear Hrun.
    replace (status_of e) with status by (destruct e; reflexivity).
    replace (detail_of e)
      with (match e with
            | ValueError m => DetailStr m
            | _ => DetailGenerateFailed
            end) by (destruct e; reflexivity).
    cbn [fst snd trace dirs]. repeat split.
    + exists ([EMkdtemp d; ERead; EWriteBytes (pdf_path_of env pdf)] ++ evs).
      now rewrite <- app_assoc.
    + unfold count. cbn [app filter is_rmtree].
      rewrite filter_app,
        (filter_none pipeline_event (is_rmtree d) evs
           (pipeline_not_rmtree d) Hev).
      cbn [filter is_rmtree app]. now rewrite path_eqb_refl.
    + apply not_in_remove_dir.
Qed.

Lemma failure_answered_by_exception_class_witness :
  fst (serve (sample_env (Returns one_page) (Returns [])) pdf_upload
         (lit "alloy") float_one 1000 (Some 5) (Some 3) None (initial_world []))
  = Ok (ErrorResponse 400 (DetailStr (MsgPageRange 1)))
  /\ fst (serve (sample_env (Returns one_page) (Returns [])) pdf_upload
            (lit "robot") float_one 1000 None None None (initial_world []))
     = Ok (ErrorResponse 500 DetailGenerateFailed).
Proof.
  split.
  - exact (proj1 (failure_answered_by_exception_class
                    (sample_env (Returns one_page) (Returns [])) pdf_upload
                    (lit "alloy") float_one 1000 (Some 5) (Some 3) None []
                    [] (ValueError (MsgPageRange 1)) (initial_world [])
                    eq_refl eq_refl eq_refl eq_refl)).
  - exact (proj1 (failure_answered_by_exception_class
                    (sample_env (Returns one_page) (Returns [])) pdf_upload
                    (lit "robot") float_one 1000 None None None []
                    [] (KeyError (lit "ROBOT")) (initial_world [])
                    eq_refl eq_refl eq_refl eq_refl)).
Defined.

(** C9, as stated, fails when a collaborator signals its failure with a
    [ValueError]: a synthesis-engine failure and a document-open failure
    of that class are both answered with HTTP 400, not 500. *)
Lemma library_value_error_answered_400 :
  fst (serve (sample_env (Returns one_page) (Raises true (lit "no chunks")))
         pdf_upload (lit "alloy") float_one 1000 None None None
         (initial_world []))
  = Ok (ErrorResponse 400 (DetailStr (MsgLibrary (lit "no chunks"))))
  /\ fst (serve (sample_env (Raises true (lit "bad file")) (Returns []))
            pdf_upload (lit "alloy") float_one 1000 None None None
            (initial_world []))
     = Ok (ErrorResponse 400 (DetailStr (MsgLibrary (lit "bad file")))).
Proof. split; reflexivity. Qed.

(** ** Paths *)

Lemma split_no_sep sep s :
  Forall (fun x => forallb (fun c => negb (char_eqb c sep)) x = true)
    (split sep s).
Proof.
  induction s as [|c s IH]; simpl.
  - repeat constructor.
  - destruct (char_eqb c sep) eqn:E.
    + constructor; [reflexivity | exact IH].
    + destruct (split sep s) as [|h t]; inversion IH; subst;
        constructor; simpl; rewrite ?E; auto.
Qed.

Lemma split_whole sep s :
  forallb (fun c => negb (char_eqb c sep)) s = true -> split sep s = [s].
Proof.
  induction s as [|c s IH]; simpl; [reflexivity|].
  rewrite andb_true_iff, negb_true_iff. intros [-> H]. now rewrite IH.
Qed.

(** Every component of a parsed path is non-empty, is not ["."] and
    holds no separator. *)
Lemma Path_parts s :
  Forall (fun c => keeps c = true /\ no_slash c = true) (parts (Path s)).
Proof.
  unfold Path. destruct (splitroot s) as [rt rel]; simpl.
  apply Forall_forall. intros c Hc. apply filter_In in Hc as [Hin Hk].
  split; [exact Hk|].
  pose proof (split_no_sep slash rel) as H. rewrite Forall_forall in H.
  exact (H c Hin).
Qed.

Lemma last_in_or_default {A} (l : list A) (d : A) :
  l = [] /\ last l d = d \/ In (last l d) l.
Proof.
  induction l as [|x l IH]; [left; split; reflexivity|right].
  destruct IH as [[-> _]|IH]; [left; reflexivity|].
  destruct l; [destruct IH|]. right. exact IH.
Qed.

(** The base name of a parsed path is empty or one of its components. *)
Lemma name_Path s :
  name (Path s) = [] \/ keeps (name (Path s)) = true
                       /\ no_slash (name (Path s)) = true.
Proof.
  unfold name.
  destruct (last_in_or_default (parts (Path s)) []) as [[_ H]|H]; [now left|].
  right. pose proof (Path_parts s) as HF. rewrite Forall_forall in HF.
  exact (HF _ H).
Qed.

(** Parsing a single component gives that component. *)
Lemma Path_component c :
  keeps c = true -> no_slash c = true -> Path c = mkPath [] [c].
Proof.
  intros Hk Hs. unfold Path.
  assert (Hroot : splitroot c = ([], c)).
  { destruct c as [|x c]; [reflexivity|]. simpl in Hs.
    apply andb_true_iff in Hs as [Hx _]. apply negb_true_iff in Hx.
    simpl. now rewrite Hx. }
  rewrite Hroot, (split_whole slash c Hs). simpl. now rewrite Hk.
Qed.

Lemma truediv_component d c :
  keeps c = true -> no_slash c = true ->
  truediv d c = mkPath (root d) (parts d ++ [c]).
Proof.
  intros Hk Hs. unfold truediv. now rewrite (Path_component c Hk Hs).
Qed.

Lemma truediv_empty d : truediv d [] = mkPath (root d) (parts d ++ []).
Proof. reflexivity. Qed.

Lemma str_eqb_length a b : length a <> length b -> str_eqb a b = false.
Proof.
  intros H. destruct (str_eqb a b) eqn:E; [|reflexivity].
  apply str_eqb_eq in E. subst. congruence.
Qed.

Lemma directly_inside_entry d c :
  entry_name c = true ->
  directly_inside d (mkPath (root d) (parts d ++ [c])) = true.
Proof.
  intros Hc. unfold directly_inside, name; simpl.
  rewrite str_eqb_refl, removelast_last, last_last.
  replace (strs_eqb (parts d) (parts d)) with true
    by (symmetry; now apply strs_eqb_eq).
  destruct (parts d ++ [c]) eqn:E; [|exact Hc].
  destruct (parts d); discriminate.
Qed.

Lemma stem_no_slash p : no_slash (name p) = true -> no_slash (stem p) = true.
Proof.
  intros H. unfold stem.
  destruct ((0 <? rfind dot (name p)) && (rfind dot (name p) <? len (name p) - 1));
    [|exact H].
  unfold no_slash in *. rewrite forallb_forall in *.
  intros x Hx. apply H.
  rewrite <- (firstn_skipn (Z.to_nat (rfind dot (name p))) (name p)).
  apply in_or_app. now left.
Qed.

(** The output name [stem + ".mp3"] always names a directory entry. *)
Lemma mp3_name_is_entry s :
  no_slash s = true -> entry_name (s ++ lit ".mp3") = true.
Proof.
  intros Hs. unfold entry_name.
  rewrite !str_eqb_length by (rewrite length_app; simpl; lia).
  replace (str_truthy (s ++ lit ".mp3")) with true
    by (destruct s; reflexivity).
  unfold no_slash in Hs. rewrite forallb_app, Hs. reflexivity.
Qed.

Lemma entry_name_keeps c :
  entry_name c = true -> keeps c = true /\ no_slash c = true.
Proof.
  unfold entry_name, keeps, no_slash. rewrite !andb_true_iff. tauto.
Qed.

(** C10, as amended.  The staged input path is the temporary directory
    extended by at most one component, the base name of the uploaded
    filename (["input.pdf"] when no filename is supplied), and that base
    name holds no separator.  The staged path lies directly inside the
    temporary directory whenever the base name is neither empty nor
    [".."]; the output path always does. *)
Theorem staged_paths_confined tmp fn :
  let temp_dir := Path tmp in
  let base := name (Path (filename_or_default fn)) in
  let pdf_path := fst (staged_paths temp_dir fn) in
  let mp3_path := snd (staged_paths temp_dir fn) in
  (fn = None \/ fn = Some [] -> base = lit "input.pdf")
  /\ no_slash base = true
  /\ pdf_path = mkPath (root temp_dir)
                  (parts temp_dir ++ if str_truthy base then [base] else [])
  /\ (base <> [] -> base <> [dot; dot] ->
      directly_inside temp_dir pdf_path = true)
  /\ directly_inside temp_dir mp3_path = true.
Proof.
  intros temp_dir base pdf_path mp3_path.
  assert (Hbase : base = [] \/ keeps base = true /\ no_slash base = true)
    by apply name_Path.
  assert (Hpdf : pdf_path
                 = mkPath (root temp_dir)
                     (parts temp_dir ++ if str_truthy base then [base] else [])).
  { unfold pdf_path, staged_paths; simpl. fold base.
    destruct Hbase as [->|[Hk Hs]]; [reflexivity|].
    rewrite (truediv_component _ _ Hk Hs).
    destruct base; [discriminate|reflexivity]. }
  split; [|split; [|split; [exact Hpdf|split]]].
  - intros [->| ->]; reflexivity.
  - destruct Hbase as [->|[_ Hs]]; [reflexivity|exact Hs].
  - intros Hne Hdd. rewrite Hpdf.
    destruct Hbase as [->|[Hk Hs]]; [congruence|].
    destruct base as [|c base'] eqn:Eb; [congruence|]. cbn [str_truthy].
    apply directly_inside_entry. unfold entry_name.
    unfold keeps in Hk. unfold no_slash in Hs. rewrite Hk, Hs.
    destruct (str_eqb (c :: base') [dot; dot]) eqn:E; [|reflexivity].
    apply str_eqb_eq in E. congruence.
  - assert (Hname : no_slash (name pdf_path) = true).
    { rewrite Hpdf. unfold name; simpl.
      destruct Hbase as [->|[_ Hs]].
      - simpl. rewrite app_nil_r.
        destruct (name_Path tmp) as [H|[_ H]]; [|exact H].
        unfold name in H. fold temp_dir in H. now rewrite H.
      - destruct (str_truthy base); [now rewrite last_last|].
        rewrite app_nil_r.
        destruct (name_Path tmp) as [H|[_ H]]; [|exact H].
        unfold name in H. fold temp_dir in H. now rewrite H. }
    pose proof (mp3_name_is_entry _ (stem_no_slash _ Hname)) as Hentry.
    destruct (entry_name_keeps _ Hentry) as [Hk Hs].
    unfold mp3_path, staged_paths; simpl. fold pdf_path.
    rewrite (truediv_component _ _ Hk Hs).
    now apply directly_inside_entry.
Qed.

Lemma staged_paths_confined_witness :
  directly_inside (Path (lit "/tmp/pdf2tts_k3x9"))
    (fst (staged_paths (Path (lit "/tmp/pdf2tts_k3x9"))
            (Some (lit "../../etc/passwd")))) = true
  /\ fst (staged_paths (Path (lit "/tmp/pdf2tts_k3x9"))
            (Some (lit "../../etc/passwd")))
     = mkPath [slash] [lit "tmp"; lit "pdf2tts_k3x9"; lit "passwd"].
Proof.
  split; [|reflexivity].
  apply (proj1 (proj2 (proj2 (proj2
           (staged_paths_confined (lit "/tmp/pdf2tts_k3x9")
              (Some (lit "../../etc/passwd"))))))).
  - vm_compute. discriminate.
  - vm_compute. discriminate.
Defined.

(** C10, as stated, fails for the filename [".."]: its base name is
    [".."], so the staged path is the parent of the temporary directory. *)
Lemma dotdot_filename_leaves_temp_dir :
  fst (staged_paths (Path (lit "/tmp/pdf2tts_k3x9")) (Some (lit "..")))
  = mkPath [slash] [lit "tmp"; lit "pdf2tts_k3x9"; lit ".."]
  /\ directly_inside (Path (lit "/tmp/pdf2tts_k3x9"))
       (fst (staged_paths (Path (lit "/tmp/pdf2tts_k3x9"))
               (Some (lit "..")))) = false.
Proof. split; reflexivity. Qed.

(** ** Checks of the model against Python *)

Example name_of_dotdot : name (Path (lit "a/..")) = lit "..".
Proof. reflexivity. Qed.

Example name_of_root : name (Path (lit "/")) = [].
Proof. reflexivity. Qed.

Example name_of_dot : name (Path (lit "./.")) = [].
Proof. reflexivity. Qed.

Example name_of_trailing_slash : name (Path (lit "foo/")) = lit "foo".
Proof. reflexivity. Qed.

Example name_of_double_slash :
  Path (lit "//x/y") = mkPath (lit "//") [lit "x"; lit "y"].
Proof. reflexivity. Qed.

Example stem_of_pdf : stem (Path (lit "a.b.pdf")) = lit "a.b".
Proof. reflexivity. Qed.

Example stem_of_hidden : stem (Path (lit ".pdf")) = lit ".pdf".
Proof. reflexivity. Qed.

Example stem_of_trailing_dot : stem (Path (lit "a.")) = lit "a.".
Proof. reflexivity. Qed.

Example staged_for_traversal :
  let '(pdf_path, mp3_path) :=
    staged_paths (Path (lit "/tmp/pdf2tts_k3x9"))
      (Some (lit "../../etc/passwd.pdf")) in
  path_str pdf_path = lit "/tmp/pdf2tts_k3x9/passwd.pdf"
  /\ path_str mp3_path = lit "/tmp/pdf2tts_k3x9/passwd.mp3".
Proof. split; reflexivity. Qed.

Example staged_for_slash :
  let '(pdf_path, mp3_path) :=
    staged_paths (Path (lit "/tmp/pdf2tts_k3x9")) (Some (lit "/")) in
  path_str pdf_path = lit "/tmp/pdf2tts_k3x9"
  /\ path_str mp3_path = lit "/tmp/pdf2tts_k3x9/pdf2tts_k3x9.mp3".
Proof. split; reflexivity. Qed.

Example staged_default :
  path_str (fst (staged_paths (Path (lit "/tmp/pdf2tts_k3x9")) None))
  = lit "/tmp/pdf2tts_k3x9/input.pdf".
Proof. reflexivity. Qed.

Example strip_text :
  strip ([32; 9] ++ lit "a b" ++ [10; 12288])%N = lit "a b".
Proof. reflexivity. Qed.

Example join_pages :
  join page_separator [lit "A"; lit "B"; lit "C"]
  = lit "A" ++ [newline; newline] ++ lit "B" ++ [newline; newline] ++ lit "C".
Proof. reflexivity. Qed.

Example range_2_5 : range 2 5 = [2; 3; 4].
Proof. reflexivity. Qed.

Example range_empty : range 5 2 = [].
Proof. reflexivity. Qed.

(** A whole request that succeeds: the directory is created, the upload
    staged, the pipeline run, the body sent, and only then the directory
    removed. *)
Example successful_request :
  serve (sample_env (Returns one_page) (Returns [])) pdf_upload
    (lit "alloy") float_one 1000 None None None (initial_world [])
  = (Ok (AudioResponse
           (mkFileResponse (lit "/tmp/pdf2tts_k3x9/book.mp3")
              (lit "audio/mpeg") (lit "book.mp3")
              [TaskRmtree (Path (lit "/tmp/pdf2tts_k3x9"))])),
     mkWorld
       [EMkdtemp (Path (lit "/tmp/pdf2tts_k3x9")); ERead;
        EWriteBytes (Path (lit "/tmp/pdf2tts_k3x9/book.pdf"));
        EOpen (lit "/tmp/pdf2tts_k3x9/book.pdf"); EGetText 0; EClose;
        ESpeech (mkRequest (lit "A") (lit "ALLOY") MP3 float_one 1000 true true);
        ESaveToFile (lit "/tmp/pdf2tts_k3x9/book.mp3");
        EBodySent (lit "/tmp/pdf2tts_k3x9/book.mp3");
        ERmtree (Path (lit "/tmp/pdf2tts_k3x9"))]
       [] 0).
Proof. reflexivity. Qed.

(** The service scenario of the spec: a page range of 5 to 3 on a valid
    PDF is answered with HTTP 400 and a text naming the page count. *)
Example reversed_range_request :
  fst (serve (sample_env (Returns three_pages) (Returns [])) pdf_upload
         (lit "alloy") float_one 1000 (Some 5) (Some 3) None (initial_world []))
  = Ok (ErrorResponse 400 (DetailStr (MsgPageRange 3))).
Proof. reflexivity. Qed.

(** * Further properties of the code *)

(** ** extract_text_from_pdf *)

Lemma for_each_app {A S} (xs ys : list A) (body : A -> S -> M S) s w :
  for_each (xs ++ ys) body s w
  = match for_each xs body s w with
    | (Ok s', w') => for_each ys body s' w'
    | (Raise e, w') => (Raise e, w')
    end.
Proof.
  revert s w. induction xs as [|x xs IH]; intros s w; simpl; [reflexivity|].
  unfold bind. destruct (body x s w) as [[s'|e] w']; [apply IH|].
  reflexivity.
Qed.

Lemma map_seq_shift {B} (f : nat -> B) (c s m : nat) :
  map f (seq (c + s) m) = map (fun j => f (c + j)%nat) (seq s m).
Proof.
  revert s. induction m as [|m IH]; intros s; simpl; [reflexivity|].
  f_equal. rewrite <- IH. f_equal. f_equal. lia.
Qed.

Lemma range_split (a k b : Z) :
  a <= k -> k < b -> range a b = range a k ++ k :: range (k + 1) b.
Proof.
  intros Hak Hkb. unfold range.
  replace (Z.to_nat (b - a))
    with (Z.to_nat (k - a) + S (Z.to_nat (b - (k + 1))))%nat by lia.
  rewrite seq_app, map_app. f_equal. simpl. f_equal; [lia|].
  replace (S (Z.to_nat (k - a))) with (S (Z.to_nat (k - a)) + 0)%nat by lia.
  rewrite map_seq_shift. apply map_ext. intros j. lia.
Qed.

Lemma range_invalid_empty (sp ep : Z) : range_invalid sp ep 0 = true.
Proof.
  unfold range_invalid. destruct (sp <? 0) eqn:E; [reflexivity|].
  apply Z.ltb_ge in E. simpl.
  replace (sp >=? 0) with true
    by (symmetry; rewrite Z.geb_leb; apply Z.leb_le; lia).
  reflexivity.
Qed.

(** Bounds given as optional one-based page numbers, an absent one
    standing for the first or the last page. *)
Lemma optional_range_accepted (start_page end_page : option Z) (T : Z) :
  let s := match start_page with Some n => n | None => 1 end in
  let e := match end_page with Some n => n | None => T end in
  1 <= s -> s <= e -> e <= T ->
  resolve_sp start_page = s - 1
  /\ resolve_ep end_page T = e
  /\ range_invalid (s - 1) e T = false.
Proof.
  intros s e H1 H2 H3.
  assert (Hsp : resolve_sp start_page = s - 1).
  { unfold resolve_sp, s in *. destruct start_page as [n|]; simpl;
      [|reflexivity].
    replace (n =? 0) with false by (symmetry; apply Z.eqb_neq; lia).
    reflexivity. }
  assert (Hep : resolve_ep end_page T = e).
  { unfold resolve_ep, e in *. destruct end_page as [n|]; simpl;
      [|reflexivity].
    replace (n =? 0) with false by (symmetry; apply Z.eqb_neq; lia).
    reflexivity. }
  repeat split; try assumption. apply range_invalid_spec. lia.
Qed.

(** X1. A document without pages is rejected with the page-range error,
    carrying the count 0, whatever page numbers are asked for; it is
    closed again and nothing is read. *)
Theorem empty_document_rejected env pdf_path start_page end_page w :
  pymupdf_open env pdf_path = Returns [] ->
  extract_text_from_pdf env pdf_path start_page end_page w
  = (Raise (ValueError (MsgPageRange 0)),
     mkWorld (trace w ++ [EOpen pdf_path; EClose]) (dirs w) (open_docs w)).
Proof.
  intros Hopen. rewrite (extract_run _ _ _ _ _ _ Hopen).
  rewrite extract_pages_invalid by apply range_invalid_empty.
  unfold emit; simpl. now rewrite <- app_assoc.
Qed.

Lemma empty_document_rejected_witness :
  extract_text_from_pdf (sample_env (Returns []) (Returns []))
    (lit "empty.pdf") None None (initial_world [])
  = (Raise (ValueError (MsgPageRange 0)),
     mkWorld [EOpen (lit "empty.pdf"); EClose] [] 0).
Proof.
  exact (empty_document_rejected (sample_env (Returns []) (Returns []))
           (lit "empty.pdf") None None (initial_world []) eq_refl).
Defined.

(** X2. Whenever extraction ends in the page-range error, the error
    carries the document's page count, no page has been read and the
    document has been closed. *)
Theorem range_error_before_reading env pdf_path doc start_page end_page
    w n w' :
  pymupdf_open env pdf_path = Returns doc ->
  extract_text_from_pdf env pdf_path start_page end_page w
  = (Raise (ValueError (MsgPageRange n)), w') ->
  n = page_count doc
  /\ w' = mkWorld (trace w ++ [EOpen pdf_path; EClose]) (dirs w)
            (open_docs w).
Proof.
  intros Hopen. rewrite (extract_run _ _ _ _ _ _ Hopen).
  destruct (range_invalid (resolve_sp start_page)
              (resolve_ep end_page (page_count doc)) (page_count doc)) eqn:E.
  - rewrite (extract_pages_invalid _ _ _ _ E). intros H; inversion H.
    split; [reflexivity|]. unfold emit; simpl. now rewrite <- app_assoc.
  - destruct (extract_pages_valid doc start_page end_page
                (emit [EOpen pdf_path] S w) E)
      as (evs & _ & [(t & ->) | (e & He & ->)]); intros H; inversion H.
    subst e. discriminate.
Qed.

Lemma range_error_before_reading_witness :
  3 = page_count three_pages
  /\ mkWorld [EOpen (lit "book.pdf"); EClose] [] 0
     = mkWorld (trace (initial_world []) ++ [EOpen (lit "book.pdf"); EClose])
         (dirs (initial_world [])) (open_docs (initial_world [])).
Proof.
  exact (range_error_before_reading
           (sample_env (Returns three_pages) (Returns []))
           (lit "book.pdf") three_pages (Some (-2)) None (initial_world [])
           3 (mkWorld [EOpen (lit "book.pdf"); EClose] [] 0)
           eq_refl eq_refl).
Defined.

(** Extraction over a valid range, each bound absent or a page number. *)
Lemma optional_range_run env pdf_path doc start_page end_page texts w :
  pymupdf_open env pdf_path = Returns doc ->
  let s := match start_page with Some n => n | None => 1 end in
  let e := match end_page with Some n => n | None => page_count doc end in
  1 <= s -> s <= e -> e <= page_count doc ->
  firstn (Z.to_nat (e - s + 1)) (skipn (Z.to_nat (s - 1)) doc)
  = map Returns texts ->
  extract_text_from_pdf env pdf_path start_page end_page w
  = (Ok (join page_separator texts),
     emit (EOpen pdf_path :: map EGetText (range (s - 1) e) ++ [EClose])
       (fun n => n) w).
Proof.
  intros Hopen s e H1 H2 H3 Hpages.
  rewrite (extract_run _ _ _ _ _ _ Hopen). unfold extract_pages.
  destruct (optional_range_accepted start_page end_page (page_count doc)
              H1 H2 H3) as (Hsp & Hep & Hok).
  fold s e in Hsp, Hep, Hok. rewrite Hsp, Hep, Hok.
  assert (Hlen : length texts = Z.to_nat (e - (s - 1))).
  { apply (f_equal (@length _)) in Hpages.
    rewrite length_firstn, length_skipn, length_map in Hpages.
    unfold page_count in H3. lia. }
  pose proof (pages_in_range doc texts _ _ Hpages) as Hall.
  rewrite Hlen in Hall.
  rewrite range_nat by lia.
  rewrite (bind_ok _ _ _ _ _ (loop_reads_pages _ _ _ Hall [] _)).
  unfold bind. rewrite doc_close_run. unfold ret, emit; simpl.
  rewrite <- !app_assoc. reflexivity.
Qed.

(** X3. With each bound either absent or a page number, an absent start
    standing for page 1 and an absent end for the last page, extraction
    over a valid range reads exactly the pages of the range, in order,
    closes the document and returns their texts joined by a blank line.
    With both bounds absent this is the whole document. *)
Theorem extract_optional_range env pdf_path doc start_page end_page texts w :
  pymupdf_open env pdf_path = Returns doc ->
  let s := match start_page with Some n => n | None => 1 end in
  let e := match end_page with Some n => n | None => page_count doc end in
  1 <= s -> s <= e -> e <= page_count doc ->
  firstn (Z.to_nat (e - s + 1)) (skipn (Z.to_nat (s - 1)) doc)
  = map Returns texts ->
  extract_text_from_pdf env pdf_path start_page end_page w
  = (Ok (join [newline; newline] texts),
     mkWorld
       (trace w ++ EOpen pdf_path :: map EGetText (range (s - 1) e)
          ++ [EClose])
       (dirs w) (open_docs w)).
Proof.
  intros Hopen s e H1 H2 H3 Hpages.
  exact (optional_range_run env pdf_path doc start_page end_page texts w
           Hopen H1 H2 H3 Hpages).
Qed.

Lemma extract_optional_range_witness :
  extract_text_from_pdf (sample_env (Returns three_pages) (Returns []))
    (lit "book.pdf") None None (initial_world [])
  = (Ok (lit "A" ++ [newline; newline] ++ lit "B" ++ [newline; newline]
           ++ lit "C"),
     mkWorld [EOpen (lit "book.pdf"); EGetText 0; EGetText 1; EGetText 2;
              EClose] [] 0)
  /\ extract_text_from_pdf (sample_env (Returns three_pages) (Returns []))
       (lit "book.pdf") (Some 2) None (initial_world [])
     = (Ok (lit "B" ++ [newline; newline] ++ lit "C"),
        mkWorld [EOpen (lit "book.pdf"); EGetText 1; EGetText 2; EClose]
          [] 0).
Proof.
  split.
  - apply (extract_optional_range
             (sample_env (Returns three_pages) (Returns []))
             (lit "book.pdf") three_pages None None
             [lit "A"; lit "B"; lit "C"] (initial_world []));
      [reflexivity | lia | vm_compute; discriminate
       | vm_compute; discriminate | reflexivity].
  - apply (extract_optional_range
             (sample_env (Returns three_pages) (Returns []))
             (lit "book.pdf") three_pages (Some 2) None
             [lit "B"; lit "C"] (initial_world []));
      [reflexivity | lia | vm_compute; discriminate
       | vm_compute; discriminate | reflexivity].
Defined.

(** X4. Reading stops at the first page of the range that fails: its
    exception propagates with its class and text, the pages after it are
    never read, and [doc.close()] is not called. *)
Theorem extraction_stops_at_failing_page env pdf_path doc start_page
    end_page q v t texts w :
  pymupdf_open env pdf_path = Returns doc ->
  let s := match start_page with Some n => n | None => 1 end in
  let e := match end_page with Some n => n | None => page_count doc end in
  1 <= s -> s <= q -> q <= e -> e <= page_count doc ->
  firstn (Z.to_nat (q - s)) (skipn (Z.to_nat (s - 1)) doc)
  = map Returns texts ->
  nth_error doc (Z.to_nat (q - 1)) = Some (Raises v t) ->
  extract_text_from_pdf env pdf_path start_page end_page w
  = (Raise (library_exn v t),
     mkWorld (trace w ++ EOpen pdf_path :: map EGetText (range (s - 1) q))
       (dirs w) (S (open_docs w))).
Proof.
  intros Hopen s e H1 H2 H3 H4 Hpages Hq.
  rewrite (extract_run _ _ _ _ _ _ Hopen). unfold extract_pages.
  destruct (optional_range_accepted start_page end_page (page_count doc)
              H1 (Z.le_trans _ _ _ H2 H3) H4) as (Hsp & Hep & Hok).
  fold s e in Hsp, Hep, Hok. rewrite Hsp, Hep, Hok.
  assert (Hlen : length texts = Z.to_nat (q - 1 - (s - 1))).
  { apply (f_equal (@length _)) in Hpages.
    rewrite length_firstn, length_skipn, length_map in Hpages.
    unfold page_count in H4. lia. }
  pose proof (pages_in_range doc texts _ _ Hpages) as Hall.
  rewrite Hlen in Hall.
  rewrite (range_split (s - 1) (q - 1) e) by lia.
  rewrite (range_split (s - 1) (q - 1) q) by lia.
  replace (q - 1 + 1) with q by lia.
  replace (range q q) with (@nil Z)
    by (unfold range; now rewrite Z.sub_diag).
  apply bind_raise. rewrite for_each_app.
  rewrite (range_nat (s - 1) (q - 1)) by lia.
  rewrite (loop_reads_pages _ _ _ Hall [] _). simpl for_each.
  apply bind_raise. apply bind_raise.
  replace (q - 1) with (Z.of_nat (Z.to_nat (q - 1))) at 1 3 by lia.
  rewrite (get_text_run _ _ _ _ Hq), emit_emit. unfold emit; simpl.
  rewrite map_app, <- !app_assoc. simpl.
  replace (Z.of_nat (Z.to_nat (q - 1))) with (q - 1) by lia.
  reflexivity.
Qed.

Lemma extraction_stops_at_failing_page_witness :
  extract_text_from_pdf
    (sample_env (Returns second_page_broken) (Returns []))
    (lit "book.pdf") None None (initial_world [])
  = (Raise (ValueError (MsgLibrary (lit "document closed or encrypted"))),
     mkWorld [EOpen (lit "book.pdf"); EGetText 0; EGetText 1] [] 1).
Proof.
  apply (extraction_stops_at_failing_page
           (sample_env (Returns second_page_broken) (Returns []))
           (lit "book.pdf") second_page_broken None None 2 true
           (lit "document closed or encrypted") [lit "A"]
           (initial_world []));
    try reflexivity; try lia; vm_compute; discriminate.
Defined.

(** ** pdf_to_mp3_with_ttsfm *)

(** X5. When the document cannot be opened, the library's exception
    propagates out of the extraction and out of the whole conversion with
    its class and text; no page is read, nothing is synthesized or saved
    and no handle is left open. *)
Theorem open_failure_propagates env pdf_path mp3_path voice speed max_length
    start_page end_page v t w :
  pymupdf_open env pdf_path = Raises v t ->
  extract_text_from_pdf env pdf_path start_page end_page w
  = (Raise (library_exn v t),
     mkWorld (trace w ++ [EOpen pdf_path]) (dirs w) (open_docs w))
  /\ pdf_to_mp3_with_ttsfm env pdf_path mp3_path voice speed max_length
       start_page end_page w
     = (Raise (library_exn v t),
        mkWorld (trace w ++ [EOpen pdf_path]) (dirs w) (open_docs w)).
Proof.
  intros Hopen.
  assert (Hx : extract_text_from_pdf env pdf_path start_page end_page w
               = (Raise (library_exn v t),
                  mkWorld (trace w ++ [EOpen pdf_path]) (dirs w)
                    (open_docs w))).
  { unfold extract_text_from_pdf.
    now rewrite (bind_raise _ _ _ _ _ (doc_open_fails _ _ _ _ w Hopen)). }
  split; [exact Hx|].
  unfold pdf_to_mp3_with_ttsfm. now apply bind_raise.
Qed.

Lemma open_failure_propagates_witness :
  pdf_to_mp3_with_ttsfm
    (sample_env (Raises false (lit "no such file")) (Returns []))
    (lit "gone.pdf") (lit "gone.mp3") (lit "alloy") float_one 1000
    None None (initial_world [])
  = (Raise (LibraryError (lit "no such file")),
     mkWorld [EOpen (lit "gone.pdf")] [] 0).
Proof.
  exact (proj2 (open_failure_propagates
                  (sample_env (Raises false (lit "no such file"))
                     (Returns []))
                  (lit "gone.pdf") (lit "gone.mp3") (lit "alloy") float_one
                  1000 None None false (lit "no such file")
                  (initial_world []) eq_refl)).
Defined.

Lemma len_app (a b : str) : len (a ++ b) = len a + len b.
Proof. unfold len. rewrite length_app. lia. Qed.

Lemma len_join (sep : str) (items : list str) :
  items <> [] ->
  len (join sep items)
  = fold_right Z.add 0 (map len items)
    + len sep * (Z.of_nat (length items) - 1).
Proof.
  induction items as [|x items IH]; [congruence|]. intros _.
  destruct items as [|y items].
  - simpl. lia.
  - change (join sep (x :: y :: items))
      with (x ++ sep ++ join sep (y :: items)).
    rewrite !len_app, IH by discriminate.
    change (map len (x :: y :: items))
      with (len x :: map len (y :: items)).
    change (length (x :: y :: items)) with (S (length (y :: items))).
    cbn [fold_right]. lia.
Qed.

(** X6. The blank lines put between pages count toward the 50000
    character limit: for a valid range whose pages hold text that is not
    all blank, the conversion is rejected as too large exactly when the
    page lengths plus two characters per page boundary exceed 50000, and
    the error reports that total. *)
Theorem separators_count_toward_limit env pdf_path mp3_path voice speed
    max_length doc start_page end_page texts w :
  pymupdf_open env pdf_path = Returns doc ->
  let s := match start_page with Some n => n | None => 1 end in
  let e := match end_page with Some n => n | None => page_count doc end in
  let total := fold_right Z.add 0 (map len texts) + 2 * (e - s) in
  let run := pdf_to_mp3_with_ttsfm env pdf_path mp3_path voice speed
               max_length start_page end_page w in
  1 <= s -> s <= e -> e <= page_count doc ->
  firstn (Z.to_nat (e - s + 1)) (skipn (Z.to_nat (s - 1)) doc)
  = map Returns texts ->
  strip (join [newline; newline] texts) <> [] ->
  (total > 50000 ->
   fst run = Raise (ValueError (MsgTooLarge 50000 total)))
  /\ (total <= 50000 ->
      forall limit n, fst run <> Raise (ValueError (MsgTooLarge limit n))).
Proof.
  intros Hopen s e total run H1 H2 H3 Hpages Hs. subst run.
  rewrite (pdf_to_mp3_run _ _ _ _ _ _ _ _ _ _ _
             (optional_range_run env pdf_path doc start_page end_page texts
                w Hopen H1 H2 H3 Hpages)).
  assert (Hlen : len (join page_separator texts) = total).
  { assert (Hn : Z.of_nat (length texts) = e - s + 1).
    { apply (f_equal (@length _)) in Hpages.
      rewrite length_firstn, length_skipn, length_map in Hpages.
      unfold page_count in H3. lia. }
    rewrite len_join by (destruct texts; [simpl in Hn; lia | discriminate]).
    unfold total. rewrite Hn. change (len page_separator) with 2. lia. }
  change [newline; newline] with page_separator in Hs.
  match goal with
  | |- context [synthesize _ _ _ _ _ _ ?W] => generalize W; intros w1
  end.
  split.
  - intros Hbig. rewrite synthesize_too_large by (rewrite ?Hlen; assumption).
    now rewrite Hlen.
  - intros Hsmall limit n Heq.
    pose proof (synthesize_accepted env (join page_separator texts) mp3_path
                  voice speed max_length w1 Hs) as H.
    rewrite Hlen in H. specialize (H Hsmall). rewrite Heq in H. exact H.
Qed.

Lemma separators_count_toward_limit_witness :
  fst (pdf_to_mp3_with_ttsfm
         (sample_env (Returns three_pages) (Returns []))
         (lit "book.pdf") (lit "book.mp3") (lit "alloy") float_one 1000
         None None (initial_world []))
  <> Raise (ValueError (MsgTooLarge 50000 7)).
Proof.
  refine (proj2 (separators_count_toward_limit
                   (sample_env (Returns three_pages) (Returns []))
                   (lit "book.pdf") (lit "book.mp3") (lit "alloy") float_one
                   1000 three_pages None None [lit "A"; lit "B"; lit "C"]
                   (initial_world []) eq_refl _ _ _ eq_refl _) _ 50000 7);
    try (vm_compute; discriminate); lia.
Defined.

(** What [synthesize] does, case by case. *)
Lemma synthesize_cases env full_text mp3_path voice spd maxlen w :
  let run := synthesize env full_text mp3_path voice spd maxlen w in
  let save_path := path_str (Path mp3_path) in
  (strip full_text = [] /\ run = (Raise (ValueError MsgNoText), w))
  \/ (strip full_text <> [] /\ len full_text > 50000
      /\ run = (Raise (ValueError (MsgTooLarge 50000 (len full_text))), w))
  \/ (strip full_text <> [] /\ len full_text <= 50000
      /\ ((Voice_getitem env (upper env voice) = None
           /\ run = (Raise (KeyError (upper env voice)), w))
          \/ exists v,
               Voice_getitem env (upper env voice) = Some v
               /\ let request :=
                    mkRequest full_text v MP3 spd maxlen true true in
                  match generate_speech_long_text env request with
                  | Raises a b =>
                      run = (Raise (library_exn a b),
                             emit [ESpeech request] (fun n => n) w)
                  | Returns resp =>
                      run = (match save_to_file env resp save_path with
                             | Returns _ => Ok tt
                             | Raises a b => Raise (library_exn a b)
                             end,
                             emit [ESpeech request; ESaveToFile save_path]
                               (fun n => n) w)
                  end)).
Proof.
  intros run save_path. subst run save_path.
  destruct (strip full_text) as [|c r] eqn:Es.
  - left. split; [reflexivity|]. now apply synthesize_blank.
  - right.
    assert (Hs : strip full_text <> []) by (rewrite Es; discriminate).
    rewrite <- Es.
    destruct (Z_le_gt_dec (len full_text) 50000) as [Hl|Hl].
    + right. repeat (split; [assumption|]).
      unfold synthesize. rewrite Es. simpl negb. cbv iota.
      replace (len full_text >? 50000) with false
        by (symmetry; rewrite Z.gtb_ltb; apply Z.ltb_ge; lia).
      destruct (Voice_getitem env (upper env voice)) as [v|];
        [right; exists v; split; [reflexivity|] | left; split; reflexivity].
      cbv zeta. unfold bind, log, call, ret, raise, emit. simpl.
      destruct (generate_speech_long_text env _) as [resp|a b];
        [|reflexivity].
      destruct (save_to_file env resp _) as [[]|a b]; simpl;
        rewrite <- ?app_assoc; reflexivity.
    + left. repeat (split; [assumption|]). now apply synthesize_too_large.
Qed.

(** The conversion is the extraction followed, when it returns, by
    [synthesize] on its text. *)
Lemma pdf_to_mp3_cases env pdf_path mp3_path voice spd maxlen start_page
    end_page w :
  exists evs0 w1,
    forallb extraction_event evs0 = true
    /\ trace w1 = trace w ++ evs0
    /\ ((exists e,
            extract_text_from_pdf env pdf_path start_page end_page w
            = (Raise e, w1)
            /\ pdf_to_mp3_with_ttsfm env pdf_path mp3_path voice spd maxlen
                 start_page end_page w = (Raise e, w1))
        \/ (exists t,
               extract_text_from_pdf env pdf_path start_page end_page w
               = (Ok t, w1)
               /\ pdf_to_mp3_with_ttsfm env pdf_path mp3_path voice spd
                    maxlen start_page end_page w
                  = synthesize env t mp3_path voice spd maxlen w1)).
Proof.
  destruct (uniform_extract env pdf_path start_page end_page)
    as (r & evs0 & f & Hev & Hrun).
  exists evs0, (emit evs0 f w). split; [exact Hev|]. split; [reflexivity|].
  destruct r as [t|e].
  - right. exists t. split; [apply Hrun|].
    apply pdf_to_mp3_run, Hrun.
  - left. exists e. split; [apply Hrun|].
    unfold pdf_to_mp3_with_ttsfm. apply bind_raise, Hrun.
Qed.

Lemma extraction_not_speech e :
  extraction_event e = true -> is_speech e = false.
Proof. destruct e; simpl; congruence. Qed.

Lemma extraction_not_save e :
  extraction_event e = true -> is_save e = false.
Proof. destruct e; simpl; congruence. Qed.

Lemma forallb_In {A} (P : A -> bool) (l : list A) (x : A) :
  forallb P l = true -> In x l -> P x = true.
Proof. rewrite forallb_forall. auto. Qed.

(** X7. One conversion calls the synthesis engine at most once, so
    nothing is retried; and when it calls it, the request holds exactly
    the extracted text, which is not blank and at most 50000 characters
    long, the MP3 format, the caller's speed and chunk length, and both
    word-preserving splitting and automatic merging switched on. *)
Theorem engine_called_at_most_once env pdf_path mp3_path voice spd maxlen
    start_page end_page w :
  exists evs,
    trace (snd (pdf_to_mp3_with_ttsfm env pdf_path mp3_path voice spd maxlen
                  start_page end_page w)) = trace w ++ evs
    /\ (count is_speech evs <= 1)%nat
    /\ forall r,
         In (ESpeech r) evs ->
         fst (extract_text_from_pdf env pdf_path start_page end_page w)
         = Ok (text r)
         /\ strip (text r) <> [] /\ len (text r) <= 50000
         /\ response_format r = MP3 /\ speed r = spd /\ max_length r = maxlen
         /\ preserve_words r = true /\ auto_combine r = true.
Proof.
  destruct (pdf_to_mp3_cases env pdf_path mp3_path voice spd maxlen
              start_page end_page w)
    as (evs0 & w1 & Hev & Htr & [(e & Hx & ->)|(t & Hx & ->)]).
  - exists evs0. split; [exact Htr|]. unfold count.
    rewrite (filter_none extraction_event is_speech evs0
               extraction_not_speech Hev).
    split; [simpl; lia|]. intros r Hin.
    pose proof (forallb_In _ _ _ Hev Hin) as H. discriminate.
  - assert (Hnone : forall tail r,
              In (ESpeech r) (evs0 ++ tail) -> In (ESpeech r) tail).
    { intros tail r Hin. apply in_app_or in Hin as [Hin|Hin]; [|exact Hin].
      pose proof (forallb_In _ _ _ Hev Hin) as H. discriminate. }
    assert (Hcount : forall tail,
              count is_speech (evs0 ++ tail) = count is_speech tail).
    { intros tail. unfold count.
      now rewrite filter_app,
        (filter_none extraction_event is_speech evs0
           extraction_not_speech Hev). }
    rewrite Hx. cbn [fst].
    destruct (synthesize_cases env t mp3_path voice spd maxlen w1)
      as [(_ & ->)|[(_ & _ & ->)|(Hs & Hl & [(_ & ->)|(v & _ & Hrun)])]];
      try (exists evs0; split; [exact Htr|]; unfold count;
           rewrite (filter_none extraction_event is_speech evs0
                      extraction_not_speech Hev);
           split; [simpl; lia|]; intros r Hin;
           pose proof (forallb_In _ _ _ Hev Hin) as H; discriminate).
    cbv zeta in Hrun.
    destruct (generate_speech_long_text env _) as [resp|a b];
      rewrite Hrun; cbn [snd emit trace]; rewrite Htr, <- app_assoc;
      eexists; (split; [reflexivity|]); rewrite Hcount;
      (split; [unfold count; simpl; lia|]);
      intros r Hin; apply Hnone in Hin; simpl in Hin;
      (destruct Hin as [Hin|Hin]; [|exfalso; intuition discriminate]);
      inversion Hin; subst r; simpl; repeat split; assumption.
Qed.

(** Where a [save_to_file] call can stand in a trace made of extraction
    events followed by one engine call and one save: last, directly after
    the engine call. *)
Lemma save_position pre r q a p b :
  forallb extraction_event pre = true ->
  pre ++ [ESpeech r; ESaveToFile q] = a ++ ESaveToFile p :: b ->
  p = q /\ b = [] /\ a = pre ++ [ESpeech r].
Proof.
  revert a. induction pre as [|e pre IH]; intros a Hev Heq.
  - destruct a as [|x [|y a]]; simpl in Heq; inversion Heq; subst.
    + repeat split.
    + destruct a; discriminate.
  - simpl in Hev. apply andb_true_iff in Hev as [He Hev].
    destruct a as [|x a]; simpl in Heq; inversion Heq; subst.
    + discriminate.
    + destruct (IH a Hev H1) as (-> & -> & ->). repeat split.
Qed.

(** No [save_to_file] call stands in a trace of extraction events,
    followed or not by one engine call. *)
Lemma no_save_position pre tail a p b :
  forallb extraction_event pre = true ->
  tail = [] \/ (exists r, tail = [ESpeech r]) ->
  pre ++ tail <> a ++ ESaveToFile p :: b.
Proof.
  intros Hev Htail Heq.
  assert (Hin : In (ESaveToFile p) (pre ++ tail))
    by (rewrite Heq; apply in_elt).
  apply in_app_or in Hin as [Hin|Hin].
  - pose proof (forallb_In _ _ _ Hev Hin) as H. discriminate.
  - destruct Htail as [->|[r ->]]; simpl in Hin;
      intuition discriminate.
Qed.

(** X8. One conversion calls [save_to_file] at most once, and only as
    the last thing it does, directly after its single engine call and
    with the output path it was given (as normalised by [Path]) as the
    argument: the events of a run are those of the extraction followed by
    nothing, by the engine call alone, or by the engine call and that
    save.  It returns normally only in the last case. *)
Theorem saved_once_after_synthesis env pdf_path mp3_path voice spd maxlen
    start_page end_page w :
  let run := pdf_to_mp3_with_ttsfm env pdf_path mp3_path voice spd maxlen
               start_page end_page w in
  let save_path := path_str (Path mp3_path) in
  exists pre tail,
    trace (snd run) = trace w ++ pre ++ tail
    /\ forallb extraction_event pre = true
    /\ (tail = []
        \/ (exists r, tail = [ESpeech r])
        \/ (exists r, tail = [ESpeech r; ESaveToFile save_path]))
    /\ (count is_save (pre ++ tail) <= 1)%nat
    /\ (count is_speech (pre ++ tail) <= 1)%nat
    /\ (forall a p b,
          pre ++ tail = a ++ ESaveToFile p :: b ->
          p = save_path /\ b = [] /\ exists a' r, a = a' ++ [ESpeech r])
    /\ (fst run = Ok tt ->
        exists r, tail = [ESpeech r; ESaveToFile save_path]).
Proof.
  intros run save_path. subst run save_path.
  destruct (pdf_to_mp3_cases env pdf_path mp3_path voice spd maxlen
              start_page end_page w)
    as (evs0 & w1 & Hev & Htr & Hcase).
  assert (Hcount : forall P tail,
            (forall e, extraction_event e = true -> P e = false) ->
            count P (evs0 ++ tail) = count P tail).
  { intros P tail HP. unfold count.
    now rewrite filter_app, (filter_none extraction_event P evs0 HP Hev). }
  assert (Hshape : forall tail,
            tail = []
            \/ (exists r, tail = [ESpeech r])
            \/ (exists r,
                   tail = [ESpeech r; ESaveToFile (path_str (Path mp3_path))]) ->
            (count is_save (evs0 ++ tail) <= 1)%nat
            /\ (count is_speech (evs0 ++ tail) <= 1)%nat
            /\ (forall a p b,
                  evs0 ++ tail = a ++ ESaveToFile p :: b ->
                  p = path_str (Path mp3_path) /\ b = []
                  /\ exists a' r, a = a' ++ [ESpeech r])).
  { intros tail Htail.
    rewrite (Hcount is_save _ extraction_not_save),
      (Hcount is_speech _ extraction_not_speech).
    destruct Htail as [->|[[r ->]|[r ->]]];
      (split; [unfold count; simpl; lia|]);
      (split; [unfold count; simpl; lia|]); intros a p b Heq.
    - exfalso. revert Heq. apply no_save_position; [exact Hev|now left].
    - exfalso. revert Heq.
      apply no_save_position; [exact Hev|right; now exists r].
    - destruct (save_position _ _ _ _ _ _ Hev Heq) as (-> & -> & ->).
      repeat split. now exists evs0, r. }
  assert (Hnone : forall x,
            fst x <> Ok tt -> trace (snd x) = trace w1 ->
            exists pre tail,
              trace (snd x) = trace w ++ pre ++ tail
              /\ forallb extraction_event pre = true
              /\ (tail = []
                  \/ (exists r, tail = [ESpeech r])
                  \/ (exists r,
                         tail = [ESpeech r;
                                 ESaveToFile (path_str (Path mp3_path))]))
              /\ (count is_save (pre ++ tail) <= 1)%nat
              /\ (count is_speech (pre ++ tail) <= 1)%nat
              /\ (forall a p b,
                    pre ++ tail = a ++ ESaveToFile p :: b ->
                    p = path_str (Path mp3_path) /\ b = []
                    /\ exists a' r, a = a' ++ [ESpeech r])
              /\ (fst x = Ok tt ->
                  exists r,
                    tail = [ESpeech r;
                            ESaveToFile (path_str (Path mp3_path))])).
  { intros x Hx Hxt. exists evs0, [].
    split; [now rewrite Hxt, Htr, app_nil_r|]. split; [exact Hev|].
    split; [now left|].
    destruct (Hshape [] (or_introl eq_refl)) as (H1 & H2 & H3).
    repeat (split; [assumption|]). intros H. contradiction. }
  destruct Hcase as [(e & _ & ->)|(t & _ & ->)].
  - apply Hnone; [discriminate|reflexivity].
  - destruct (synthesize_cases env t mp3_path voice spd maxlen w1)
      as [(_ & ->)|[(_ & _ & ->)|(_ & _ & [(_ & ->)|(v & _ & Hrun)])]];
      try (apply Hnone; [discriminate|reflexivity]).
    cbv zeta in Hrun.
    destruct (generate_speech_long_text env _) as [resp|a b];
      rewrite Hrun; cbn [fst snd emit trace]; rewrite Htr, <- app_assoc.
    + eexists evs0, _. split; [reflexivity|]. split; [exact Hev|].
      assert (Hthird :
                [ESpeech (mkRequest t v MP3 spd maxlen true true);
                 ESaveToFile (path_str (Path mp3_path))] = []
                \/ (exists r,
                      [ESpeech (mkRequest t v MP3 spd maxlen true true);
                       ESaveToFile (path_str (Path mp3_path))] = [ESpeech r])
                \/ (exists r,
                      [ESpeech (mkRequest t v MP3 spd maxlen true true);
                       ESaveToFile (path_str (Path mp3_path))]
                      = [ESpeech r; ESaveToFile (path_str (Path mp3_path))]))
        by (right; right; eexists; reflexivity).
      split; [exact Hthird|].
      destruct (Hshape _ Hthird) as (H1 & H2 & H3).
      repeat (split; [assumption|]). intros _. eexists; reflexivity.
    + eexists evs0, _. split; [reflexivity|]. split; [exact Hev|].
      assert (Hsecond :
                [ESpeech (mkRequest t v MP3 spd maxlen true true)] = []
                \/ (exists r,
                      [ESpeech (mkRequest t v MP3 spd maxlen true true)]
                      = [ESpeech r])
                \/ (exists r,
                      [ESpeech (mkRequest t v MP3 spd maxlen true true)]
                      = [ESpeech r; ESaveToFile (path_str (Path mp3_path))]))
        by (right; left; eexists; reflexivity).
      split; [exact Hsecond|].
      destruct (Hshape _ Hsecond) as (H1 & H2 & H3).
      repeat (split; [assumption|]). destruct a; discriminate.
Qed.

(** ** convert_pdf *)

(** Every way one request can go, with the world it leaves behind. *)
Lemma serve_table env pdf voice spd maxlen start_page end_page
    background_tasks ds :
  let d := temp_dir_of env in
  let p := pdf_path_of env pdf in
  let tasks := match background_tasks with Some b => b | None => [] end in
  let pipeline :=
    pdf_to_mp3_with_ttsfm env (path_str p) (path_str (mp3_path_of env pdf))
      voice spd maxlen start_page end_page in
  let run := serve env pdf voice spd maxlen start_page end_page
               background_tasks (initial_world ds) in
  (content_type_allowed (content_type pdf) = false
   /\ run = (Ok (ErrorResponse 400 DetailUnsupported),
             mkWorld [EErrorResponse 400] ds 0))
  \/ (content_type_allowed (content_type pdf) = true
      /\ ((exists v t,
              pdf_read env = Raises v t
              /\ run = (Ok (ErrorResponse 400 DetailReadFailed),
                        mkWorld [EMkdtemp d; ERead; ERmtree d;
                                 EErrorResponse 400]
                          (remove_dir d (d :: ds)) 0))
          \/ (exists b v t,
                 pdf_read env = Returns b /\ write_bytes env p b = Raises v t
                 /\ run = (Ok (ErrorResponse 400 DetailReadFailed),
                           mkWorld [EMkdtemp d; ERead; EWriteBytes p;
                                    ERmtree d; EErrorResponse 400]
                             (remove_dir d (d :: ds)) 0))
          \/ (exists b w1,
                 pdf_read env = Returns b /\ write_bytes env p b = Returns tt
                 /\ ((exists e,
                         pipeline (staged_world env pdf ds) = (Raise e, w1)
                         /\ run = (Ok (ErrorResponse (status_of e)
                                         (detail_of e)),
                                   mkWorld
                                     (trace w1
                                        ++ [ERmtree d;
                                            EErrorResponse (status_of e)])
                                     (remove_dir d (dirs w1))
                                     (open_docs w1)))
                     \/ (pipeline (staged_world env pdf ds) = (Ok tt, w1)
                         /\ run
                            = match refusal_status
                                      (file_response_call env
                                         (path_str (mp3_path_of env pdf)))
                              with
                              | None =>
                                  (Ok (AudioResponse
                                         (mkFileResponse
                                            (path_str (mp3_path_of env pdf))
                                            (lit "audio/mpeg")
                                            (stem p ++ lit ".mp3")
                                            (tasks ++ [TaskRmtree d]))),
                                   mkWorld
                                     (trace w1
                                        ++ EBodySent
                                             (path_str (mp3_path_of env pdf))
                                        :: map task_event tasks
                                        ++ [ERmtree d])
                                     (remove_dir d
                                        (remove_dirs tasks (dirs w1)))
                                     (open_docs w1))
                              | Some status =>
                                  (Ok (PlainTextResponse status),
                                   mkWorld
                                     (trace w1 ++ [EErrorResponse status])
                                     (dirs w1) (open_docs w1))
                              end))))).
Proof.
  intros d p tasks pipeline run. subst run. rewrite serve_unfold.
  destruct (content_type_allowed (content_type pdf)) eqn:Hct.
  - right. split; [reflexivity|].
    rewrite (convert_pdf_run _ _ _ _ _ _ _ _ _ Hct). fold d p tasks.
    destruct (pdf_read env) as [b|v t] eqn:Er;
      [|left; exists v, t; split; reflexivity].
    destruct (write_bytes env p b) as [[]|v t] eqn:Ew;
      [|right; left; exists b, v, t; repeat split;
        solve [reflexivity|exact Ew]].
    right; right. fold pipeline.
    destruct (pipeline (staged_world env pdf ds)) as [[[]|e] w1].
    + exists b, w1. split; [reflexivity|]. split; [exact Ew|]. right.
      split; [reflexivity|]. cbn [response_path background].
      destruct (refusal_status _); [reflexivity|]. simpl.
      rewrite map_app. unfold remove_dirs. rewrite fold_left_app.
      reflexivity.
    + exists b, w1. split; [reflexivity|]. split; [exact Ew|]. left.
      exists e. split; [reflexivity|].
      destruct e; simpl; rewrite <- app_assoc; reflexivity.
  - left. split; [reflexivity|].
    now rewrite (convert_pdf_rejects _ _ _ _ _ _ _ _ _ Hct).
Qed.

(** The conversion leaves the directories alone and only adds events of
    its own. *)
Lemma pipeline_frame env pdf_path mp3_path voice spd maxlen start_page
    end_page w r w1 :
  pdf_to_mp3_with_ttsfm env pdf_path mp3_path voice spd maxlen start_page
    end_page w = (r, w1) ->
  dirs w1 = dirs w
  /\ exists evs, trace w1 = trace w ++ evs
                 /\ forallb pipeline_event evs = true.
Proof.
  destruct (uniform_pdf_to_mp3 env pdf_path mp3_path voice spd maxlen
              start_page end_page) as (r0 & evs & f & Hev & Hrun).
  rewrite Hrun. intros H; inversion H; subst. split; [reflexivity|].
  exists evs. split; [reflexivity|exact Hev].
Qed.


Lemma in_remove_dir x d ds : In x (remove_dir d ds) <-> In x ds /\ x <> d.
Proof.
  unfold remove_dir. rewrite filter_In, negb_true_iff. split.
  - intros [Hin Hne]. split; [exact Hin|]. intros ->.
    rewrite path_eqb_refl in Hne. discriminate.
  - intros [Hin Hne]. split; [exact Hin|].
    destruct (path_eqb x d) eqn:E; [|reflexivity].
    apply path_eqb_eq in E. contradiction.
Qed.

(** ** Paths and their strings *)

Lemma splitroot_root s :
  fst (splitroot s) = [] \/ fst (splitroot s) = [slash]
  \/ fst (splitroot s) = [slash; slash].
Proof.
  destruct s as [|c1 [|c2 [|c3 r]]]; simpl; auto;
    destruct (char_eqb c1 slash); simpl; auto;
    destruct (char_eqb c2 slash); simpl; auto;
    destruct (char_eqb c3 slash); simpl; auto.
Qed.

Lemma Path_parsed s : parsed (Path s).
Proof.
  split; [|apply Path_parts].
  unfold Path. pose proof (splitroot_root s) as H.
  destruct (splitroot s) as [rt rel]. exact H.
Qed.

Lemma split_app_sep x s :
  no_slash x = true -> split slash (x ++ slash :: s) = x :: split slash s.
Proof.
  induction x as [|c x IH]; simpl; intros H.
  - reflexivity.
  - apply andb_true_iff in H as [Hc Hx]. apply negb_true_iff in Hc.
    rewrite Hc, (IH Hx). reflexivity.
Qed.

Lemma split_join ps :
  Forall (fun c => no_slash c = true) ps -> ps <> [] ->
  split slash (join [slash] ps) = ps.
Proof.
  induction ps as [|x ps IH]; [congruence|]. intros HF _.
  inversion HF as [|? ? Hx Hps]; subst.
  destruct ps as [|y ps].
  - simpl. now apply split_whole.
  - change (join [slash] (x :: y :: ps))
      with (x ++ slash :: join [slash] (y :: ps)).
    rewrite (split_app_sep _ _ Hx), IH by (assumption || discriminate).
    reflexivity.
Qed.

(** The string of a non-empty list of components starts with a
    character that is not a separator. *)
Lemma join_head c ps :
  keeps c = true -> no_slash c = true ->
  exists x r, join [slash] (c :: ps) = x :: r /\ char_eqb x slash = false.
Proof.
  intros Hk Hs. destruct c as [|x c]; [discriminate|].
  simpl in Hs. apply andb_true_iff in Hs as [Hx _].
  apply negb_true_iff in Hx.
  destruct ps; simpl; eexists x, _; split; try reflexivity; exact Hx.
Qed.

Lemma filter_keeps_all ps :
  Forall (fun c => keeps c = true /\ no_slash c = true) ps ->
  filter keeps ps = ps.
Proof.
  induction 1 as [|c ps [Hk _] _ IH]; simpl; [reflexivity|].
  now rewrite Hk, IH.
Qed.

Lemma splitroot_relative x r :
  char_eqb x slash = false -> splitroot (x :: r) = ([], x :: r).
Proof. intros H. simpl. now rewrite H. Qed.

Lemma splitroot_one_slash x r :
  char_eqb x slash = false ->
  splitroot (slash :: x :: r) = ([slash], x :: r).
Proof. intros H. simpl. now rewrite H. Qed.

Lemma splitroot_two_slashes x r :
  char_eqb x slash = false ->
  splitroot (slash :: slash :: x :: r) = ([slash; slash], x :: r).
Proof. intros H. simpl. now rewrite H. Qed.

(** [Path(str(p))] gives [p] back. *)
Lemma Path_path_str p : parsed p -> Path (path_str p) = p.
Proof.
  destruct p as [rt ps]. intros [Hroot Hparts]. cbn [root parts] in *.
  assert (Hns : Forall (fun c => no_slash c = true) ps)
    by (eapply Forall_impl; [|exact Hparts]; intros c [_ H]; exact H).
  destruct ps as [|c ps].
  - destruct Hroot as [->|[->| ->]]; reflexivity.
  - inversion Hparts as [|? ? [Hk Hs] _]; subst.
    destruct (join_head c ps Hk Hs) as (x & r & Hj & Hx).
    assert (Hsplit : filter keeps (split slash (x :: r)) = c :: ps).
    { rewrite <- Hj, split_join by (assumption || discriminate).
      now apply filter_keeps_all. }
    unfold Path, path_str. cbn [root parts].
    destruct Hroot as [->|[->| ->]]; cbn [app]; rewrite Hj.
    + rewrite (splitroot_relative _ _ Hx). now rewrite Hsplit.
    + rewrite (splitroot_one_slash _ _ Hx). now rewrite Hsplit.
    + rewrite (splitroot_two_slashes _ _ Hx). now rewrite Hsplit.
Qed.

Lemma truediv_parsed d c :
  parsed d -> keeps c = true -> no_slash c = true -> parsed (truediv d c).
Proof.
  intros [Hr Hp] Hk Hs. rewrite (truediv_component _ _ Hk Hs).
  split; [exact Hr|]. simpl. apply Forall_app. split; [exact Hp|].
  now repeat constructor.
Qed.

(** The base name of the path an upload is staged at holds no
    separator. *)
Lemma staged_name_no_slash tmp fn :
  no_slash (name (fst (staged_paths (Path tmp) fn))) = true.
Proof.
  unfold staged_paths; simpl.
  destruct (name_Path (filename_or_default fn)) as [->|[Hk Hs]].
  - rewrite truediv_empty. unfold name; simpl. rewrite app_nil_r.
    destruct (name_Path tmp) as [H|[_ H]]; [|exact H].
    unfold name in H. now rewrite H.
  - rewrite (truediv_component _ _ Hk Hs). unfold name; simpl.
    now rewrite last_last.
Qed.

(** The output path of a request is a parsed path, so converting it to
    a string and back changes nothing. *)
Lemma mp3_path_round_trip env pdf :
  path_str (Path (path_str (mp3_path_of env pdf)))
  = path_str (mp3_path_of env pdf).
Proof.
  rewrite Path_path_str; [reflexivity|].
  unfold mp3_path_of, temp_dir_of, staged_paths; simpl.
  pose proof (staged_name_no_slash (mkdtemp_name env) (filename pdf)) as Hn.
  unfold staged_paths in Hn; simpl in Hn.
  pose proof (mp3_name_is_entry _ (stem_no_slash _ Hn)) as Hentry.
  destruct (entry_name_keeps _ Hentry) as [Hk Hs].
  apply truediv_parsed; [apply Path_parsed | exact Hk | exact Hs].
Qed.

(** A conversion that returns has ended with the engine call and the
    write of the audio. *)
Lemma pipeline_ok_tail env pdf_path mp3_path voice spd maxlen start_page
    end_page w u w1 :
  pdf_to_mp3_with_ttsfm env pdf_path mp3_path voice spd maxlen start_page
    end_page w = (Ok u, w1) ->
  exists pre r,
    forallb extraction_event pre = true
    /\ trace w1
       = trace w ++ pre
           ++ [ESpeech r; ESaveToFile (path_str (Path mp3_path))].
Proof.
  destruct (pdf_to_mp3_cases env pdf_path mp3_path voice spd maxlen
              start_page end_page w)
    as (evs0 & w0 & Hev & Htr & [(e & _ & ->)|(t & _ & ->)]);
    [discriminate|].
  destruct (synthesize_cases env t mp3_path voice spd maxlen w0)
    as [(_ & ->)|[(_ & _ & ->)|(_ & _ & [(_ & ->)|(v & _ & Hrun)])]];
    try discriminate.
  cbv zeta in Hrun.
  destruct (generate_speech_long_text env _) as [resp|a b];
    rewrite Hrun; [|destruct a; discriminate].
  intros H; inversion H; subst. eexists evs0, _. split; [exact Hev|].
  cbn [emit trace]. now rewrite Htr, <- app_assoc.
Qed.


Lemma staged_no_pipeline_events env pdf ds :
  filter pipeline_event (trace (staged_world env pdf ds)) = [].
Proof. reflexivity. Qed.



(** X10. When the upload cannot be read, or cannot be written into the
    temporary directory, the request is answered with HTTP 400 "failed to
    read", the conversion is never started (no document is opened, nothing
    is synthesized or saved) and the directory is gone. *)
Theorem staging_failure_answered_400 env pdf voice spd maxlen start_page
    end_page background_tasks ds :
  content_type_allowed (content_type pdf) = true ->
  (exists v t, pdf_read env = Raises v t)
  \/ (exists b v t,
         pdf_read env = Returns b
         /\ write_bytes env (pdf_path_of env pdf) b = Raises v t) ->
  let run := serve env pdf voice spd maxlen start_page end_page
               background_tasks (initial_world ds) in
  fst run = Ok (ErrorResponse 400 DetailReadFailed)
  /\ count pipeline_event (trace (snd run)) = 0%nat
  /\ open_docs (snd run) = 0%nat
  /\ ~ In (temp_dir_of env) (dirs (snd run)).
Proof.
  intros Hct Hfail run.
  destruct (serve_table env pdf voice spd maxlen start_page end_page
              background_tasks ds)
    as [[Hno _]
       |[_ [(v & t & Hr & Hserve)
           |[(b & v & t & Hr & Hw & Hserve)
            |(b & w1 & Hr & Hw & _)]]]];
    try congruence.
  - fold run in Hserve. rewrite Hserve. cbn [fst snd trace dirs open_docs].
    repeat split; try reflexivity. apply not_in_remove_dir.
  - fold run in Hserve. rewrite Hserve. cbn [fst snd trace dirs open_docs].
    repeat split; try reflexivity. apply not_in_remove_dir.
  - destruct Hfail as [(v & t & Hr')|(b' & v & t & Hr' & Hw')];
      [congruence|].
    rewrite Hr in Hr'. inversion Hr'; subst b'. congruence.
Qed.

Lemma staging_failure_answered_400_witness :
  serve unreadable_env pdf_upload (lit "alloy") float_one 1000 None None
    None (initial_world [])
  = (Ok (ErrorResponse 400 DetailReadFailed),
     mkWorld [EMkdtemp (Path (lit "/tmp/pdf2tts_k3x9")); ERead;
              ERmtree (Path (lit "/tmp/pdf2tts_k3x9")); EErrorResponse 400]
       [] 0)
  /\ count pipeline_event
       (trace (snd (serve unreadable_env pdf_upload (lit "alloy") float_one
                      1000 None None None (initial_world []))))
     = 0%nat.
Proof.
  split; [reflexivity|].
  refine (proj1 (proj2 (staging_failure_answered_400 unreadable_env
                          pdf_upload (lit "alloy") float_one 1000 None None
                          None [] eq_refl _))).
  left. exists false, (lit "client disconnected"). reflexivity.
Defined.

(** X11. The handler returns its file response exactly when the content
    type is accepted, the upload is read and written, and the conversion
    returns.  The response then names the output path inside the
    temporary directory, the media type [audio/mpeg], and a download name
    that is the stem of the staged file followed by [".mp3"] and holds no
    directory separator. *)
Theorem file_response_returned_iff env pdf voice spd maxlen start_page
    end_page background_tasks ds :
  let p := pdf_path_of env pdf in
  let run := convert_pdf env pdf voice spd maxlen start_page end_page
               background_tasks (initial_world ds) in
  ((exists r, fst run = Ok r)
   <-> content_type_allowed (content_type pdf) = true
       /\ exists b,
            pdf_read env = Returns b /\ write_bytes env p b = Returns tt
            /\ fst (pdf_to_mp3_with_ttsfm env (path_str p)
                      (path_str (mp3_path_of env pdf)) voice spd maxlen
                      start_page end_page (staged_world env pdf ds))
               = Ok tt)
  /\ forall r,
       fst run = Ok r ->
       response_path r = path_str (mp3_path_of env pdf)
       /\ media_type r = lit "audio/mpeg"
       /\ response_filename r = stem p ++ lit ".mp3"
       /\ no_slash (response_filename r) = true.
Proof.
  intros p run. subst run.
  destruct (content_type_allowed (content_type pdf)) eqn:Hct.
  - rewrite (convert_pdf_run _ _ _ _ _ _ _ _ _ Hct). fold p.
    destruct (pdf_read env) as [b|v t] eqn:Er.
    + destruct (write_bytes env p b) as [[]|v t] eqn:Ew.
      * destruct (pdf_to_mp3_with_ttsfm _ _ _ _ _ _ _ _ _)
          as [[[]|e] w1] eqn:Hp; cbn [fst].
        -- split; [split|].
           ++ intros _. split; [reflexivity|]. exists b.
              split; [reflexivity|]. split; [exact Ew|].
              reflexivity.
           ++ intros _. eexists. reflexivity.
           ++ intros r H. inversion H; subst r. cbn.
              repeat split.
              pose proof (staged_name_no_slash (mkdtemp_name env)
                            (filename pdf)) as Hn.
              pose proof (mp3_name_is_entry _ (stem_no_slash _ Hn))
                as Hentry.
              exact (proj2 (entry_name_keeps _ Hentry)).
        -- split; [split|];
             [intros [r H]; discriminate
             | intros (_ & b' & _ & _ & Hok); discriminate
             | intros r H; discriminate].
      * cbn [fst]. split; [split|];
          [intros [r H]; discriminate
          | intros (_ & b' & Hr' & Hw' & _);
            inversion Hr'; subst b'; rewrite Ew in Hw'; discriminate
          | intros r H; discriminate].
    + cbn [fst]. split; [split|];
        [intros [r H]; discriminate
        | intros (_ & b & Hr' & _); discriminate
        | intros r H; discriminate].
  - rewrite (convert_pdf_rejects _ _ _ _ _ _ _ _ _ Hct). cbn [fst].
    split; [split|];
      [intros [r H]; discriminate | intros [H _]; discriminate
      | intros r H; discriminate].
Qed.

(** X12. A request touches no directory but its own: whatever its
    outcome, every other directory that was on disk before is still there
    afterwards, and none has appeared. *)
Theorem other_directories_untouched env pdf voice spd maxlen start_page
    end_page background_tasks ds x :
  background_tasks = None \/ background_tasks = Some [] ->
  x <> temp_dir_of env ->
  In x (dirs (snd (serve env pdf voice spd maxlen start_page end_page
                     background_tasks (initial_world ds))))
  <-> In x ds.
Proof.
  intros Hbt Hx.
  assert (Htasks : match background_tasks with Some b => b | None => [] end
                   = []) by (destruct Hbt; subst; reflexivity).
  assert (Hown : In x (remove_dir (temp_dir_of env) (temp_dir_of env :: ds))
                 <-> In x ds).
  { rewrite in_remove_dir. simpl. intuition congruence. }
  destruct (serve_table env pdf voice spd maxlen start_page end_page
              background_tasks ds)
    as [[_ Hserve]
       |[_ [(v & t & _ & Hserve)
           |[(b & v & t & _ & _ & Hserve)
            |(b & w1 & _ & _ & [(e & Hp & Hserve)|(Hp & Hserve)])]]]];
    rewrite Hserve; cbn [snd dirs]; try exact Hown; try reflexivity.
  - destruct (pipeline_frame _ _ _ _ _ _ _ _ _ _ _ Hp) as [-> _].
    exact Hown.
  - destruct (pipeline_frame _ _ _ _ _ _ _ _ _ _ _ Hp) as [Hd _].
    destruct (refusal_status _); cbn [snd dirs]; rewrite Hd.
    + simpl. intuition congruence.
    + rewrite Htasks. exact Hown.
Qed.

Lemma other_directories_untouched_witness :
  In (Path (lit "/tmp/pdf2tts_other"))
    (dirs (snd (serve (sample_env (Returns one_page) (Returns []))
                  pdf_upload (lit "alloy") float_one 1000 None None None
                  (initial_world [Path (lit "/tmp/pdf2tts_other")])))).
Proof.
  apply (other_directories_untouched
           (sample_env (Returns one_page) (Returns [])) pdf_upload
           (lit "alloy") float_one 1000 None None None
           [Path (lit "/tmp/pdf2tts_other")] (Path (lit "/tmp/pdf2tts_other"))
           (or_introl eq_refl)).
  - vm_compute. discriminate.
  - left. reflexivity.
Defined.

(** X13. The path the handler puts in its response is the very string
    it has had passed to [save_to_file]: when the handler returns, the
    last two things done were the engine call and the call of
    [save_to_file] with the response's path as its argument. *)
Theorem response_path_is_save_argument env pdf voice spd maxlen start_page
    end_page background_tasks ds r w1 :
  convert_pdf env pdf voice spd maxlen start_page end_page background_tasks
    (initial_world ds) = (Ok r, w1) ->
  exists pre request,
    trace w1 = pre ++ [ESpeech request; ESaveToFile (response_path r)].
Proof.
  destruct (content_type_allowed (content_type pdf)) eqn:Hct;
    [|rewrite (convert_pdf_rejects _ _ _ _ _ _ _ _ _ Hct); discriminate].
  rewrite (convert_pdf_run _ _ _ _ _ _ _ _ _ Hct).
  destruct (pdf_read env) as [b|v t]; [|discriminate].
  destruct (write_bytes env (pdf_path_of env pdf) b) as [[]|v t];
    [|discriminate].
  destruct (pdf_to_mp3_with_ttsfm _ _ _ _ _ _ _ _ _) as [[[]|e] w2] eqn:Hp;
    [|discriminate].
  intros H; inversion H; subst r w1; clear H. cbn [response_path].
  destruct (pipeline_ok_tail _ _ _ _ _ _ _ _ _ _ _ Hp)
    as (pre & request & _ & ->).
  rewrite mp3_path_round_trip.
  exists (trace (staged_world env pdf ds) ++ pre), request.
  now rewrite <- app_assoc.
Qed.

Lemma response_path_is_save_argument_witness :
  exists pre request,
    trace (snd (convert_pdf (sample_env (Returns one_page) (Returns []))
                  pdf_upload (lit "alloy") float_one 1000 None None None
                  (initial_world [])))
    = pre ++ [ESpeech request;
              ESaveToFile (lit "/tmp/pdf2tts_k3x9/book.mp3")].
Proof.
  exact (response_path_is_save_argument
           (sample_env (Returns one_page) (Returns [])) pdf_upload
           (lit "alloy") float_one 1000 None None None []
           (mkFileResponse (lit "/tmp/pdf2tts_k3x9/book.mp3")
              (lit "audio/mpeg") (lit "book.mp3")
              [TaskRmtree (Path (lit "/tmp/pdf2tts_k3x9"))])
           _ eq_refl).
Defined.

(** ** File names *)

Lemma rfind_from_app c a b i found :
  rfind_from c (a ++ b) i found
  = rfind_from c b (i + len a) (rfind_from c a i found).
Proof.
  revert i found. induction a as [|x a IH]; intros i found; simpl.
  - unfold len; simpl. now rewrite Z.add_0_r.
  - rewrite IH. f_equal. unfold len; simpl length. lia.
Qed.

Lemma rfind_from_absent c b i found :
  forallb (fun x => negb (char_eqb x c)) b = true ->
  rfind_from c b i found = found.
Proof.
  revert i found. induction b as [|x b IH]; intros i found; simpl;
    [reflexivity|].
  rewrite andb_true_iff, negb_true_iff. intros [-> Hb]. now apply IH.
Qed.

(** The last dot of [s ++ ".mp3"] is the one of the extension. *)
Lemma rfind_dot_mp3 s : rfind dot (s ++ lit ".mp3") = len s.
Proof.
  unfold rfind. change (lit ".mp3") with (dot :: lit "mp3").
  rewrite rfind_from_app.
  change (rfind_from dot (dot :: lit "mp3") (0 + len s)
            (rfind_from dot s 0 (-1)))
    with (rfind_from dot (lit "mp3") (0 + len s + 1) (0 + len s)).
  rewrite rfind_from_absent by reflexivity. lia.
Qed.

Lemma stem_mp3 p s :
  name p = s ++ lit ".mp3" -> s <> [] -> stem p = s.
Proof.
  intros Hn Hs. unfold stem. rewrite Hn, rfind_dot_mp3, len_app.
  replace ((0 <? len s) && (len s <? len s + len (lit ".mp3") - 1)) with true.
  - unfold len. rewrite Nat2Z.id, firstn_app, Nat.sub_diag, firstn_all.
    simpl. now rewrite app_nil_r.
  - symmetry. apply andb_true_iff. split; apply Z.ltb_lt.
    + unfold len. destruct s; [congruence|]. simpl length. lia.
    + change (len (lit ".mp3")) with 4. lia.
Qed.

(** X14. For an upload whose base name already ends in [".mp3"], the
    path at which the handler stages the upload and the output path it
    passes to the conversion are one and the same path. *)
Theorem mp3_upload_shares_output_path tmp fn s :
  name (Path (filename_or_default fn)) = s ++ lit ".mp3" -> s <> [] ->
  fst (staged_paths (Path tmp) fn) = snd (staged_paths (Path tmp) fn).
Proof.
  intros Hn Hs. unfold staged_paths. cbn [fst snd].
  destruct (name_Path (filename_or_default fn)) as [H|[Hk Hns]].
  - rewrite Hn in H. destruct s; discriminate.
  - rewrite (truediv_component _ _ Hk Hns).
    rewrite (stem_mp3 _ s); [now rewrite <- Hn, (truediv_component _ _ Hk Hns)
                            | | exact Hs].
    unfold name; simpl. now rewrite last_last.
Qed.

Lemma mp3_upload_shares_output_path_witness :
  fst (staged_paths (Path (lit "/tmp/pdf2tts_k3x9")) (Some (lit "talk.mp3")))
  = snd (staged_paths (Path (lit "/tmp/pdf2tts_k3x9"))
           (Some (lit "talk.mp3"))).
Proof.
  apply (mp3_upload_shares_output_path (lit "/tmp/pdf2tts_k3x9")
           (Some (lit "talk.mp3")) (lit "talk")).
  - reflexivity.
  - discriminate.
Defined.

(** ** The command line *)

(** [p.with_suffix(".mp3")] keeps the directory of [p] and names the
    file by its stem followed by [".mp3"]. *)
Lemma with_suffix_mp3_stem p :
  name p <> [] ->
  with_suffix_mp3 p
  = Returns (mkPath (root p) (removelast (parts p) ++ [stem p ++ lit ".mp3"])).
Proof.
  intros Hn. unfold with_suffix_mp3, suffix, stem.
  destruct (name p) as [|c n] eqn:En; [congruence|]. cbn [str_truthy negb].
  destruct ((0 <? rfind dot (c :: n))
            && (rfind dot (c :: n) <? len (c :: n) - 1)) eqn:E.
  - apply andb_true_iff in E as [H0 H1].
    apply Z.ltb_lt in H0, H1. unfold len in H1.
    assert (Hlen : (Z.to_nat (rfind dot (c :: n)) < length (c :: n))%nat)
      by lia.
    destruct (skipn (Z.to_nat (rfind dot (c :: n))) (c :: n)) eqn:Es.
    + apply (f_equal (@length _)) in Es. rewrite length_skipn in Es.
      simpl length in *. lia.
    + cbn [str_truthy negb]. rewrite <- Es, length_skipn.
      replace (length (c :: n)
               - (length (c :: n) - Z.to_nat (rfind dot (c :: n))))%nat
        with (Z.to_nat (rfind dot (c :: n))) by lia.
      reflexivity.
  - reflexivity.
Qed.

Lemma Forall_removelast {A} (P : A -> Prop) (l : list A) :
  Forall P l -> Forall P (removelast l).
Proof.
  induction 1 as [|x l Hx Hl IH]; simpl; [constructor|].
  destruct l; [constructor|]. constructor; assumption.
Qed.

(** The default output path is a parsed path. *)
Lemma default_output_parsed s :
  parsed (mkPath (root (Path s))
            (removelast (parts (Path s)) ++ [stem (Path s) ++ lit ".mp3"])).
Proof.
  destruct (Path_parsed s) as [Hr Hp]. split; [exact Hr|]. cbn [parts].
  apply Forall_app. split; [now apply Forall_removelast|].
  constructor; [|constructor].
  apply entry_name_keeps, mp3_name_is_entry, stem_no_slash.
  destruct (name_Path s) as [->|[_ H]]; [reflexivity|exact H].
Qed.

(** X15. Without an output option, or with an empty one, the command
    line runs the conversion with, as output path, the input's path in
    which the file name is replaced by its stem followed by [".mp3"]; and
    when it returns, the last thing done was the call of [save_to_file]
    with exactly that path as its argument. *)
Theorem default_output_beside_input env args w :
  Cli.out args = None \/ Cli.out args = Some [] ->
  name (Path (Cli.pdf args)) <> [] ->
  let p := Path (Cli.pdf args) in
  let out_path :=
    path_str (mkPath (root p)
                (removelast (parts p) ++ [stem p ++ lit ".mp3"])) in
  Cli.main env args w
  = pdf_to_mp3_with_ttsfm env (Cli.pdf args) out_path (Cli.voice args)
      (Cli.speed args) (Cli.max_length args) (Cli.start_page args)
      (Cli.end_page args) w
  /\ (fst (Cli.main env args w) = Ok tt ->
      exists pre r,
        trace (snd (Cli.main env args w))
        = trace w ++ pre ++ [ESpeech r; ESaveToFile out_path]).
Proof.
  intros Hout Hn p out_path.
  assert (Hmain : Cli.main env args w
                  = pdf_to_mp3_with_ttsfm env (Cli.pdf args) out_path
                      (Cli.voice args) (Cli.speed args) (Cli.max_length args)
                      (Cli.start_page args) (Cli.end_page args) w).
  { unfold Cli.main.
    assert (Hdef : (p <- call (with_suffix_mp3 (Path (Cli.pdf args))) ;;
                    ret (path_str p)) w = (Ok out_path, w)).
    { rewrite (with_suffix_mp3_stem _ Hn). reflexivity. }
    destruct Hout as [-> | ->]; cbn [str_truthy];
      now rewrite (bind_ok _ _ _ _ _ Hdef). }
  split; [exact Hmain|].
  rewrite Hmain.
  destruct (pdf_to_mp3_with_ttsfm env (Cli.pdf args) out_path
              (Cli.voice args) (Cli.speed args) (Cli.max_length args)
              (Cli.start_page args) (Cli.end_page args) w)
    as [r w1] eqn:Hrun.
  cbn [fst snd]. intros ->.
  destruct (pipeline_ok_tail _ _ _ _ _ _ _ _ _ _ _ Hrun)
    as (pre & request & _ & Htr).
  exists pre, request. rewrite Htr. unfold out_path, p.
  now rewrite (Path_path_str _ (default_output_parsed (Cli.pdf args))).
Qed.

Lemma default_output_beside_input_witness :
  Cli.main (sample_env (Returns one_page) (Returns [])) plain_args
    (initial_world [])
  = pdf_to_mp3_with_ttsfm (sample_env (Returns one_page) (Returns []))
      (lit "docs/book.v2.pdf") (lit "docs/book.v2.mp3") (lit "alloy")
      float_one 1000 None None (initial_world []).
Proof.
  refine (proj1 (default_output_beside_input
                   (sample_env (Returns one_page) (Returns [])) plain_args
                   (initial_world []) (or_introl eq_refl) _)).
  vm_compute. discriminate.
Defined.

(** X16. An input path without a file name (empty, ["."], ["/"], a
    trailing ["./"]) and no output option make the command line fail with
    a [ValueError] naming the path, before the document is opened or
    anything else is done. *)
Theorem nameless_input_rejected env args w :
  Cli.out args = None \/ Cli.out args = Some [] ->
  name (Path (Cli.pdf args)) = [] ->
  Cli.main env args w
  = (Raise (ValueError
              (MsgLibrary
                 (lit "PosixPath('" ++ path_str (Path (Cli.pdf args))
                    ++ lit "') has an empty name"))), w).
Proof.
  intros Hout Hn. unfold Cli.main.
  assert (Hdef : (p <- call (with_suffix_mp3 (Path (Cli.pdf args))) ;;
                  ret (path_str p)) w
                 = (Raise (ValueError
                             (MsgLibrary
                                (lit "PosixPath('"
                                   ++ path_str (Path (Cli.pdf args))
                                   ++ lit "') has an empty name"))), w)).
  { unfold with_suffix_mp3. rewrite Hn. reflexivity. }
  destruct Hout as [-> | ->]; cbn [str_truthy];
    now rewrite (bind_raise _ _ _ _ _ Hdef).
Qed.

Lemma nameless_input_rejected_witness :
  Cli.main (sample_env (Returns one_page) (Returns [])) nameless_args
    (initial_world [])
  = (Raise (ValueError (MsgLibrary (lit "PosixPath('.') has an empty name"))),
     initial_world []).
Proof.
  exact (nameless_input_rejected
           (sample_env (Returns one_page) (Returns [])) nameless_args
           (initial_world []) (or_introl eq_refl) eq_refl).
Defined.

Example with_suffix_nested :
  with_suffix_mp3 (Path (lit "/x/y.tar.gz"))
  = Returns (Path (lit "/x/y.tar.mp3")).
Proof. reflexivity. Qed.

Example with_suffix_hidden :
  with_suffix_mp3 (Path (lit ".hidden")) = Returns (Path (lit ".hidden.mp3")).
Proof. reflexivity. Qed.

Example with_suffix_trailing_dot :
  with_suffix_mp3 (Path (lit "a.")) = Returns (Path (lit "a..mp3")).
Proof. reflexivity. Qed.

Example with_suffix_directory :
  with_suffix_mp3 (Path (lit "./a/./b.pdf")) = Returns (Path (lit "a/b.mp3")).
Proof. reflexivity. Qed.

Example with_suffix_root :
  with_suffix_mp3 (Path (lit "/"))
  = Raises true (lit "PosixPath('/') has an empty name").
Proof. reflexivity. Qed.

(** ** Further invariants *)

Lemma range_bounds a b i : In i (range a b) -> a <= i < b.
Proof.
  unfold range. rewrite in_map_iff. intros (k & <- & Hk).
  apply in_seq in Hk. lia.
Qed.

Lemma loop_no_index_error doc idxs :
  Forall (fun i => 0 <= i < page_count doc) idxs ->
  forall acc w j,
    fst (for_each idxs
           (fun i texts => t <- get_text doc i ;; ret (texts ++ [t])) acc w)
    <> Raise (IndexError j).
Proof.
  induction 1 as [|i idxs Hi _ IH]; intros acc w j; simpl; [discriminate|].
  unfold bind at 1. unfold bind at 1. unfold get_text.
  unfold bind at 1. rewrite log_run.
  replace ((i <? 0) || (page_count doc <=? i)) with false
    by (symmetry; apply orb_false_iff; split;
        [apply Z.ltb_ge | apply Z.leb_gt]; lia).
  destruct (nth_error doc (Z.to_nat i)) as [o|] eqn:E.
  - destruct o as [t|v t]; simpl.
    + apply IH.
    + destruct v; discriminate.
  - apply nth_error_None in E. unfold page_count in Hi. lia.
Qed.

(** X17. The page loop never indexes outside the document: whatever
    page numbers are asked for and whatever the pages do, extraction never
    ends in an [IndexError]. *)
Theorem extraction_never_index_error env pdf_path start_page end_page w j :
  fst (extract_text_from_pdf env pdf_path start_page end_page w)
  <> Raise (IndexError j).
Proof.
  destruct (pymupdf_open env pdf_path) as [doc|v t] eqn:Hopen.
  - rewrite (extract_run _ _ _ _ _ _ Hopen). unfold extract_pages.
    destruct (range_invalid (resolve_sp start_page)
                (resolve_ep end_page (page_count doc)) (page_count doc))
      eqn:E; [discriminate|].
    apply range_invalid_spec in E.
    assert (Hall : Forall (fun i => 0 <= i < page_count doc)
                     (range (resolve_sp start_page)
                        (resolve_ep end_page (page_count doc)))).
    { apply Forall_forall. intros i Hi. apply range_bounds in Hi. lia. }
    pose proof (loop_no_index_error doc _ Hall []
                  (emit [EOpen pdf_path] S w) j) as Hloop.
    unfold bind at 1.
    destruct (for_each _ _ _ _) as [[texts|e] w1]; [discriminate|].
    simpl in *. intros Heq. apply Hloop. inversion Heq. reflexivity.
  - unfold extract_text_from_pdf.
    rewrite (bind_raise _ _ _ _ _ (doc_open_fails _ _ _ _ w Hopen)).
    destruct v; discriminate.
Qed.

Lemma synthesize_keeps_handles env full_text mp3_path voice spd maxlen w :
  open_docs (snd (synthesize env full_text mp3_path voice spd maxlen w))
  = open_docs w.
Proof.
  destruct (uniform_synthesize env full_text mp3_path voice spd maxlen)
    as (r & evs & f & _ & Hrun).
  destruct (synthesize_cases env full_text mp3_path voice spd maxlen w)
    as [(_ & ->)|[(_ & _ & ->)|(_ & _ & [(_ & ->)|(v & _ & H)])]];
    try reflexivity.
  cbv zeta in H.
  destruct (generate_speech_long_text env _); rewrite H; reflexivity.
Qed.

(** X18. Once the text has been extracted the document is closed for
    good: whether the conversion then returns or fails in a check, in the
    voice look-up, in the engine or in the write, it leaves as many
    handles open as it found. *)
Theorem document_closed_after_extraction env pdf_path mp3_path voice spd
    maxlen start_page end_page w t wx :
  extract_text_from_pdf env pdf_path start_page end_page w = (Ok t, wx) ->
  open_docs (snd (pdf_to_mp3_with_ttsfm env pdf_path mp3_path voice spd
                    maxlen start_page end_page w))
  = open_docs w.
Proof.
  intros Hx. rewrite (pdf_to_mp3_run _ _ _ _ _ _ _ _ _ _ _ Hx).
  rewrite synthesize_keeps_handles.
  destruct (pymupdf_open env pdf_path) as [doc|v e] eqn:Hopen.
  - exact (extract_handle_accounting _ _ _ _ _ _ _ _ Hopen Hx).
  - unfold extract_text_from_pdf in Hx.
    rewrite (bind_raise _ _ _ _ _ (doc_open_fails _ _ _ _ w Hopen)) in Hx.
    discriminate.
Qed.

Lemma document_closed_after_extraction_witness :
  open_docs (snd (pdf_to_mp3_with_ttsfm
                    (sample_env (Returns one_page)
                       (Raises false (lit "network unreachable")))
                    (lit "book.pdf") (lit "book.mp3") (lit "alloy")
                    float_one 1000 None None (initial_world [])))
  = 0%nat.
Proof.
  exact (document_closed_after_extraction
           (sample_env (Returns one_page)
              (Raises false (lit "network unreachable")))
           (lit "book.pdf") (lit "book.mp3") (lit "alloy") float_one 1000
           None None (initial_world []) (lit "A") _ eq_refl).
Defined.

(** X19. When the handler returns the response, the temporary directory
    is still on disk and has not been touched: its removal is only
    scheduled, as the last background task of the response, so the file
    to stream exists while the body is sent. *)
Theorem directory_outlives_handler env pdf voice spd maxlen start_page
    end_page background_tasks ds r w1 :
  convert_pdf env pdf voice spd maxlen start_page end_page background_tasks
    (initial_world ds) = (Ok r, w1) ->
  In (temp_dir_of env) (dirs w1)
  /\ count (is_rmtree (temp_dir_of env)) (trace w1) = 0%nat
  /\ exists earlier, background r = earlier ++ [TaskRmtree (temp_dir_of env)].
Proof.
  destruct (content_type_allowed (content_type pdf)) eqn:Hct;
    [|rewrite (convert_pdf_rejects _ _ _ _ _ _ _ _ _ Hct); discriminate].
  rewrite (convert_pdf_run _ _ _ _ _ _ _ _ _ Hct).
  destruct (pdf_read env) as [b|v t]; [|discriminate].
  destruct (write_bytes env (pdf_path_of env pdf) b) as [[]|v t];
    [|discriminate].
  destruct (pdf_to_mp3_with_ttsfm _ _ _ _ _ _ _ _ _) as [[[]|e] w2] eqn:Hp;
    [|discriminate].
  intros H; inversion H; subst r w1; clear H.
  destruct (pipeline_frame _ _ _ _ _ _ _ _ _ _ _ Hp)
    as (Hdirs & evs & Htr & Hev).
  split; [rewrite Hdirs; left; reflexivity|]. split.
  - rewrite Htr. unfold count, staged_world.
    cbn [trace app filter is_rmtree].
    now rewrite (filter_none pipeline_event _ evs
                   (pipeline_not_rmtree (temp_dir_of env)) Hev).
  - eexists. reflexivity.
Qed.

Lemma directory_outlives_handler_witness :
  In (Path (lit "/tmp/pdf2tts_k3x9"))
    (dirs (snd (convert_pdf (sample_env (Returns one_page) (Returns []))
                  pdf_upload (lit "alloy") float_one 1000 None None None
                  (initial_world [])))).
Proof.
  refine (proj1 (directory_outlives_handler
                   (sample_env (Returns one_page) (Returns [])) pdf_upload
                   (lit "alloy") float_one 1000 None None None []
                   (mkFileResponse (lit "/tmp/pdf2tts_k3x9/book.mp3")
                      (lit "audio/mpeg") (lit "book.mp3")
                      [TaskRmtree (Path (lit "/tmp/pdf2tts_k3x9"))])
                   _ eq_refl)).
Defined.
